(** * Virtual try-on endpoint: the two [generateImage.js] handlers

    A shallow embedding of the serverless function [POST /api/generateImage]
    in its two versions:

    - [api/generateImage.js], which calls the Gemini client ([Gemini.handler]);
    - the mocked version that returns a placeholder URL ([Mock.handler]).

    A handler is a computation in a small monad [Run] that threads the
    chronological list of the effects it performs (outbound fetch, provider
    call, [console.error], [setTimeout]) and either returns a value or throws
    a JavaScript error.  Everything the handler reads from outside (the
    process environment, the network, the provider, the clock) is a field of
    a [World]. *)

From Stdlib Require Import ZArith List String Ascii Bool Lia.
From Stdlib Require Import Init.Byte Numbers.DecimalString Numbers.DecimalZ.
Import ListNotations.

#[local] Set Warnings "-register-all".
Local Open Scope list_scope.
Local Open Scope string_scope.

(** ** JavaScript values *)

(** The values a parsed JSON body, a provider result or a local variable of
    the handlers can hold.  A number is given by the text JavaScript prints
    for it ([Number.prototype.toString]: ["42"], ["1.5"], ["1e+21"], ["NaN"],
    ["-Infinity"]; a zero of either sign prints ["0"]): that text, and whether
    the number is zero or NaN, are all a handler can observe of a number.
    Strings are byte strings (UTF-8): the only character the handlers look
    for is the comma, a single byte that occurs in no multi-byte sequence. An
    object is the list of its own properties, all of them data (no function
    is a value), the first binding of a name being the one a read sees. *)
Inductive JsVal : Type :=
| JUndefined
| JNull
| JBool (b : bool)
| JNum (shown : string)
| JStr (s : string)
| JArr (items : list JsVal)
| JObj (props : list (string * JsVal)).

(** [ToBoolean]: what [!v], [a || b] and [if (v)] test. *)
Definition truthy (v : JsVal) : bool :=
  match v with
  | JUndefined | JNull => false
  | JBool b => b
  | JNum shown => negb ((shown =? "0") || (shown =? "NaN"))
  | JStr s => negb (s =? "")
  | JArr _ | JObj _ => true
  end.

(** [a || b] *)
Definition js_or (a b : JsVal) : JsVal := if truthy a then a else b.

Definition nullish (v : JsVal) : bool :=
  match v with
  | JUndefined | JNull => true
  | _ => false
  end.

Definition Z_to_string (n : Z) : string :=
  NilEmpty.string_of_int (Z.to_int n).

(** ** Errors and results *)

(** An [Error] object: its constructor name and its [message]. *)
Record JsError : Type := mkError { err_name : string; err_message : string }.

(** [new Error(msg)] *)
Definition Error (msg : string) : JsError := mkError "Error" msg.

Definition type_name (v : JsVal) : string :=
  match v with
  | JUndefined => "undefined"
  | JNull => "null"
  | _ => "object"
  end.

(** The engine's [TypeError] for a property read on [undefined] or [null]
    (the message is V8's, the engine of the Node.js runtime). *)
Definition TypeError_read (base : JsVal) (prop : string) : JsError :=
  mkError "TypeError"
    ("Cannot read properties of " ++ type_name base ++ " (reading '" ++ prop ++ "')").

(** The engine's [TypeError] for [const { p, ... } = e] with [e] undefined or null. *)
Definition TypeError_destructure (base : JsVal) (prop expr : string) : JsError :=
  mkError "TypeError"
    ("Cannot destructure property '" ++ prop ++ "' of '" ++ expr ++ "' as it is "
       ++ type_name base ++ ".").

(** The engine's [TypeError] for an object that no method turns into a primitive. *)
Definition TypeError_to_primitive : JsError :=
  mkError "TypeError" "Cannot convert object to primitive value".

(** The engine's [TypeError] for a call of a member that is not a function. *)
Definition TypeError_not_function (expr : string) : JsError :=
  mkError "TypeError" (expr ++ " is not a function").

(** A JavaScript evaluation: a value, or a thrown error. *)
Inductive Result (A : Type) : Type :=
| Ok (a : A)
| Throw (e : JsError).
Arguments Ok {A} a.
Arguments Throw {A} e.

Definition and_then {A B : Type} (r : Result A) (k : A -> Result B) : Result B :=
  match r with
  | Ok a => k a
  | Throw e => Throw e
  end.

(** ** Property reads *)

Definition own_property (props : list (string * JsVal)) (k : string) : JsVal :=
  match find (fun p => fst p =? k) props with
  | Some p => snd p
  | None => JUndefined
  end.

Definition has_own_property (props : list (string * JsVal)) (k : string) : bool :=
  existsb (fun p => fst p =? k) props.

(** [ToString], as a template literal applies it to an interpolated value.
    An array prints through [join]: its elements in order, separated by
    commas, an [undefined] or [null] element as the empty text. An object
    prints through [Object.prototype.toString], unless an own property named
    [toString] hides it: that property is data, not a function, [valueOf]
    returns no primitive either, and the conversion throws. *)
Fixpoint to_string (v : JsVal) : Result string :=
  match v with
  | JUndefined => Ok "undefined"
  | JNull => Ok "null"
  | JBool true => Ok "true"
  | JBool false => Ok "false"
  | JNum shown => Ok shown
  | JStr s => Ok s
  | JArr items =>
      (fix join (l : list JsVal) : Result string :=
         match l with
         | [] => Ok ""
         | [x] => if nullish x then Ok "" else to_string x
         | x :: rest =>
             and_then (if nullish x then Ok "" else to_string x) (fun first =>
             and_then (join rest) (fun others => Ok (first ++ "," ++ others)))
         end) items
  | JObj props =>
      if has_own_property props "toString" then Throw TypeError_to_primitive
      else Ok "[object Object]"
  end.

(** The value of [v.k], for the member names the handlers read ([response], [candidates],
    [content], [parts], [inlineData], [data], and the three request fields):
    none of them is defined on a built-in prototype, so a primitive or an
    array reads [undefined] and an object reads its own property. *)
Definition member (v : JsVal) (k : string) : JsVal :=
  match v with
  | JObj props => own_property props k
  | _ => JUndefined
  end.

(** The read [v.k] itself, which throws on [undefined] and [null]. *)
Definition get_prop (v : JsVal) (k : string) : Result JsVal :=
  if nullish v then Throw (TypeError_read v k) else Ok (member v k).

(** The value of [v[i]] for a literal index [i]. *)
Definition element (v : JsVal) (i : nat) : JsVal :=
  match v with
  | JArr items => nth i items JUndefined
  | JObj props => own_property props (Z_to_string (Z.of_nat i))
  | JStr s =>
      match String.get i s with
      | Some c => JStr (String c "")
      | None => JUndefined
      end
  | _ => JUndefined
  end.

(** The read [v[i]] itself. *)
Definition get_index (v : JsVal) (i : nat) : Result JsVal :=
  if nullish v then Throw (TypeError_read v (Z_to_string (Z.of_nat i)))
  else Ok (element v i).

(** ** Strings and bytes *)

(** [s.split(sep)] for a one-character separator: the pieces between the
    occurrences of [sep], never an empty list. *)
Fixpoint split (sep : ascii) (s : string) : list string :=
  match s with
  | EmptyString => [""]
  | String c rest =>
      if Ascii.eqb c sep then "" :: split sep rest
      else match split sep rest with
           | piece :: pieces => String c piece :: pieces
           | [] => [String c ""]
           end
  end.

(** [v.split(",")]: only a string has the method. *)
Definition call_split (expr : string) (v : JsVal) : Result (list JsVal) :=
  match v with
  | JStr s => Ok (map JStr (split "," s))
  | JUndefined | JNull => Throw (TypeError_read v "split")
  | _ => Throw (TypeError_not_function (expr ++ ".split"))
  end.

Definition base64_alphabet : string :=
  "ABCDEFGHIJKLMNOPQRSTUVWXYZabcdefghijklmnopqrstuvwxyz0123456789+/".

Definition base64_digit (n : N) : ascii :=
  match String.get (N.to_nat (N.land n 63)) base64_alphabet with
  | Some c => c
  | None => "="%char
  end.

(** [Buffer.from(bytes).toString("base64")]: three bytes to four digits,
    the last group padded with [=]. *)
Fixpoint base64 (bs : list byte) : string :=
  match bs with
  | [] => ""
  | [a] =>
      let n := N.shiftl (Byte.to_N a) 4 in
      String (base64_digit (N.shiftr n 6)) (String (base64_digit n) "==")
  | [a; b] =>
      let n := N.shiftl (N.lor (N.shiftl (Byte.to_N a) 8) (Byte.to_N b)) 2 in
      String (base64_digit (N.shiftr n 12))
        (String (base64_digit (N.shiftr n 6)) (String (base64_digit n) "="))
  | a :: b :: c :: rest =>
      let n := N.lor (N.shiftl (Byte.to_N a) 16)
                 (N.lor (N.shiftl (Byte.to_N b) 8) (Byte.to_N c)) in
      String (base64_digit (N.shiftr n 18))
        (String (base64_digit (N.shiftr n 12))
           (String (base64_digit (N.shiftr n 6))
              (String (base64_digit n) (base64 rest))))
  end.

(** ** Effects *)

(** What a handler does to the outside, in the order it does it. *)
Inductive Event : Type :=
| EvFetch (url : JsVal)
    (* fetch(url) *)
| EvGenerateContent (apiKey : JsVal) (model : string) (content : JsVal)
    (* new GoogleGenerativeAI(apiKey).getGenerativeModel({ model }).generateContent(content) *)
| EvConsoleError (label : string) (detail : JsVal + JsError)
    (* console.error(label, detail) *)
| EvSetTimeout (ms : Z).
    (* await new Promise((resolve) => setTimeout(resolve, ms)) *)

(** The outbound network calls: the product-image fetch and the provider call. *)
Definition is_network_call (e : Event) : bool :=
  match e with
  | EvFetch _ | EvGenerateContent _ _ _ => true
  | EvConsoleError _ _ | EvSetTimeout _ => false
  end.

Definition network_calls (trace : list Event) : list Event :=
  filter is_network_call trace.

(** The [Response] object [fetch] resolves to, as far as the handler reads
    it: [ok], [statusText], [arrayBuffer()] (which may reject) and
    [headers.get("content-type")] (a string, or [null] when [None]). *)
Record FetchResponse : Type := mkFetchResponse {
  ok : bool;
  statusText : string;
  arrayBuffer : Result (list byte);
  content_type : option string
}.

(** Everything outside the handler. *)
Record World : Type := mkWorld {
  GOOGLE_API_KEY : option string;
    (* process.env.GOOGLE_API_KEY: a string, or undefined when None *)
  NODE_ENV : option string;
    (* process.env.NODE_ENV, likewise *)
  fetch : JsVal -> Result FetchResponse;
    (* the network: what fetch(url) resolves to, or the error it rejects with *)
  generateContent : JsVal -> string -> JsVal -> Result JsVal;
    (* the provider, by API key, model name and content *)
  Date_now : Z
    (* Date.now() *)
}.

(** [process.env.NAME] as a value. *)
Definition env_value (v : option string) : JsVal :=
  match v with
  | Some s => JStr s
  | None => JUndefined
  end.

(** [headers.get(name)] as a value. *)
Definition header_value (v : option string) : JsVal :=
  match v with
  | Some s => JStr s
  | None => JNull
  end.

(** A computation that extends the trace of effects and returns or throws. *)
Definition Run (A : Type) : Type := list Event -> Result A * list Event.

Definition ret {A : Type} (a : A) : Run A := fun tr => (Ok a, tr).

Definition throw {A : Type} (e : JsError) : Run A := fun tr => (Throw e, tr).

Definition bind {A B : Type} (m : Run A) (k : A -> Run B) : Run B :=
  fun tr =>
    match m tr with
    | (Ok a, tr') => k a tr'
    | (Throw e, tr') => (Throw e, tr')
    end.

(** A pure evaluation that may throw. *)
Definition lift {A : Type} (r : Result A) : Run A := fun tr => (r, tr).

(** An effect, with the outcome the world gives it. *)
Definition perform {A : Type} (ev : Event) (outcome : Result A) : Run A :=
  fun tr => (outcome, (tr ++ [ev])%list).

(** [try { body } catch (error) { handler }] *)
Definition try_catch {A : Type} (body : Run A) (handler : JsError -> Run A) : Run A :=
  fun tr =>
    match body tr with
    | (Ok a, tr') => (Ok a, tr')
    | (Throw e, tr') => handler e tr'
    end.

(** One invocation, from an empty trace. *)
Definition exec {A : Type} (m : Run A) : Result A * list Event := m [].

Declare Scope run_scope.
Delimit Scope run_scope with run.
Notation "x <- m ;; k" := (bind m (fun x => k))
  (at level 61, m at next level, right associativity) : run_scope.
Notation "m ;;; k" := (bind m (fun _ => k))
  (at level 61, right associativity) : run_scope.
Local Open Scope run_scope.

(** ** Requests and responses *)

(** The request, as far as the handlers read it. *)
Record Request : Type := mkRequest {
  method : string;
  body : JsVal
}.

(** What [res.status(code).json(payload)] sends. *)
Record Response : Type := mkResponse {
  status : Z;
  json : JsVal
}.

(** [{ error: msg }] *)
Definition error_body (msg : string) : JsVal := JObj [("error", JStr msg)].

(** [const { userPhoto, productImage, prompt } = req.body;] *)
Definition destructure_body (b : JsVal) : Result (JsVal * JsVal * JsVal) :=
  if nullish b then Throw (TypeError_destructure b "userPhoto" "req.body")
  else Ok (member b "userPhoto", member b "productImage", member b "prompt").

(** [!userPhoto || !productImage || !prompt] *)
Definition missing_field (userPhoto productImage prompt : JsVal) : bool :=
  negb (truthy userPhoto) || negb (truthy productImage) || negb (truthy prompt).

(** [console.error(label, error.message || error)] *)
Definition message_or_error (error : JsError) : JsVal + JsError :=
  if truthy (JStr (err_message error)) then inl (JStr (err_message error)) else inr error.

(** ** The Gemini handler ([api/generateImage.js]) *)

Module Gemini.

Definition model_name : string := "gemini-1.5-flash".

Definition missing_fields_message : string :=
  "Missing required fields: userPhoto, productImage, or prompt".

Definition key_not_configured_message : string := "Google API key not configured".

Definition generic_error_message : string :=
  "Failed to generate try-on image. Please try again or check logs.".

Definition log_label : string := "Error in image generation:".

(** [userPhoto.split(",")[1] || userPhoto] *)
Definition userBase64 (userPhoto : JsVal) : Result JsVal :=
  and_then (call_split "userPhoto" userPhoto) (fun pieces =>
  Ok (js_or (nth 1 pieces JUndefined) userPhoto)).

(** The multi-modal content array: the prompt, the user photo, the product image. *)
Definition content (prompt userBase64 productMimeType : JsVal) (productBase64 : string)
  : JsVal :=
  JArr [ JObj [("text", prompt)];
         JObj [("inlineData", JObj [("mimeType", JStr "image/jpeg"); ("data", userBase64)])];
         JObj [("inlineData", JObj [("mimeType", productMimeType);
                                    ("data", JStr productBase64)])] ].

Definition get (k : string) (v : JsVal) : Result JsVal := get_prop v k.
Definition at_index (i : nat) (v : JsVal) : Result JsVal := get_index v i.

(** [result.response.candidates[0].content.parts[0].inlineData.data] *)
Definition generatedBase64 (result : JsVal) : Result JsVal :=
  and_then (get "response" result) (fun response =>
  and_then (get "candidates" response) (fun candidates =>
  and_then (at_index 0 candidates) (fun candidate =>
  and_then (get "content" candidate) (fun content =>
  and_then (get "parts" content) (fun parts =>
  and_then (at_index 0 parts) (fun part =>
  and_then (get "inlineData" part) (fun inlineData =>
  get "data" inlineData))))))).

Definition no_image_error : JsError := Error "No generated image in Gemini response".

(** Lines 85-94: read the generated image out of the provider's result and
    build the success response. *)
Definition map_result (result : JsVal) : Result Response :=
  and_then (generatedBase64 result) (fun generated =>
  if negb (truthy generated) then Throw no_image_error
  else
    and_then (to_string generated) (fun shown =>
    let generatedImageUrl := "data:image/png;base64," ++ shown in
    Ok (mkResponse 200 (JObj [("generatedImageUrl", JStr generatedImageUrl)])))).

(** The body of the [try] block. The client and the model object are built
    without any effect; the two awaited calls are the fetch and
    [generateContent], in that order. *)
Definition try_block (w : World) (apiKey userPhoto productImage prompt : JsVal)
  : Run Response :=
  productResponse <- perform (EvFetch productImage) (fetch w productImage) ;;
  if negb (ok productResponse) then
    throw (Error ("Failed to fetch product image: " ++ statusText productResponse))
  else
    productBuffer <- lift (arrayBuffer productResponse) ;;
    let productBase64 := base64 productBuffer in
    let productMimeType :=
      js_or (header_value (content_type productResponse)) (JStr "image/png") in
    userBase64 <- lift (userBase64 userPhoto) ;;
    let content := content prompt userBase64 productMimeType productBase64 in
    result <- perform (EvGenerateContent apiKey model_name content)
                (generateContent w apiKey model_name content) ;;
    lift (map_result result).

(** The [catch] block. *)
Definition catch_block (error : JsError) : Run Response :=
  perform (EvConsoleError log_label (message_or_error error)) (Ok tt) ;;;
  ret (mkResponse 500 (error_body generic_error_message)).

Definition handler (w : World) (req : Request) : Run Response :=
  if negb (method req =? "POST") then
    ret (mkResponse 405 (error_body "Method not allowed"))
  else
    fields <- lift (destructure_body (body req)) ;;
    let '(userPhoto, productImage, prompt) := fields in
    if missing_field userPhoto productImage prompt then
      ret (mkResponse 400 (error_body missing_fields_message))
    else
      let apiKey := env_value (GOOGLE_API_KEY w) in
      if negb (truthy apiKey) then
        ret (mkResponse 500 (error_body key_not_configured_message))
      else
        try_catch (try_block w apiKey userPhoto productImage prompt) catch_block.

End Gemini.

(** ** The mocked handler *)

Module Mock.

Definition missing_fields_message : string :=
  "Missing required fields (userPhoto, productImage, prompt)".

Definition dev_placeholder : string := "https://via.placeholder.com/300?text=Try-On+Preview".

(** [process.env.NODE_ENV === "development" ? ... : `https://your-domain.com/generated/${Date.now()}.jpg`] *)
Definition generatedImageUrl (w : World) : string :=
  if match NODE_ENV w with Some env => env =? "development" | None => false end
  then dev_placeholder
  else "https://your-domain.com/generated/" ++ Z_to_string (Date_now w) ++ ".jpg".

Definition try_block (w : World) : Run Response :=
  let generatedImageUrl := generatedImageUrl w in
  perform (EvSetTimeout 2000) (Ok tt) ;;;
  ret (mkResponse 200 (JObj [("generatedImageUrl", JStr generatedImageUrl)])).

Definition catch_block (error : JsError) : Run Response :=
  perform (EvConsoleError "Error generating image:" (inr error)) (Ok tt) ;;;
  ret (mkResponse 500 (error_body "Failed to generate image")).

Definition handler (w : World) (req : Request) : Run Response :=
  if negb (method req =? "POST") then
    ret (mkResponse 405 (error_body "Method not allowed"))
  else
    fields <- lift (destructure_body (body req)) ;;
    let '(userPhoto, productImage, prompt) := fields in
    if missing_field userPhoto productImage prompt then
      ret (mkResponse 400 (error_body missing_fields_message))
    else
      try_catch (try_block w) catch_block.

End Mock.

(** ** Vocabulary of the properties *)

(** A POST request whose body carries the three fields, all truthy. *)
Definition valid_post (req : Request) : Prop :=
  method req = "POST"
  /\ truthy (member (body req) "userPhoto") = true
  /\ truthy (member (body req) "productImage") = true
  /\ truthy (member (body req) "prompt") = true.

(** A POST request with a body in which some field is absent or falsy. *)
Definition incomplete_post (req : Request) : Prop :=
  method req = "POST"
  /\ nullish (body req) = false
  /\ (truthy (member (body req) "userPhoto") = false
      \/ truthy (member (body req) "productImage") = false
      \/ truthy (member (body req) "prompt") = false).

(** [process.env.GOOGLE_API_KEY] is set to a non-empty string. *)
Definition key_configured (w : World) : bool := truthy (env_value (GOOGLE_API_KEY w)).

(** The text of [s] after its first comma, when it has one. *)
Fixpoint after_first_comma (s : string) : option string :=
  match s with
  | EmptyString => None
  | String c rest => if Ascii.eqb c "," then Some rest else after_first_comma rest
  end.

(** The text of [s] before its first comma, all of [s] when it has none. *)
Fixpoint up_to_comma (s : string) : string :=
  match s with
  | EmptyString => ""
  | String c rest => if Ascii.eqb c "," then "" else String c (up_to_comma rest)
  end.

(** The user payload in words: the substring after the first comma when
    it is not empty, the whole string otherwise. *)
Definition payload_after_first_comma (userPhoto : string) : string :=
  match after_first_comma userPhoto with
  | Some tail => if tail =? "" then userPhoto else tail
  | None => userPhoto
  end.

(** The user payload in words: the segment between the first comma and the
    next one (or the end of the string) when it is not empty, the whole
    string otherwise. *)
Definition payload_second_segment (userPhoto : string) : string :=
  match after_first_comma userPhoto with
  | Some tail => if up_to_comma tail =? "" then userPhoto else up_to_comma tail
  | None => userPhoto
  end.

(** Where the provider's result is expected to hold the image: the value of
    [result.response.candidates[0].content.parts[0].inlineData], read without
    throwing ([undefined] as soon as a step finds nothing). *)
Definition inlineData_of (result : JsVal) : JsVal :=
  member
    (element
       (member (member (element (member (member result "response") "candidates") 0) "content")
          "parts") 0)
    "inlineData".

(** The expected output field, read the same way. *)
Definition inline_image_of (result : JsVal) : JsVal := member (inlineData_of result) "data".

(** The provider's result lacks the expected output field: nothing at the
    path, or a falsy value. *)
Definition lacks_image (result : JsVal) : bool := negb (truthy (inline_image_of result)).

(** The content the Gemini handler sends for a request, given the fetched
    product image. *)
Definition sent_content (req : Request) (userData : JsVal) (productResponse : FetchResponse)
  (productBuffer : list byte) : JsVal :=
  JArr [ JObj [("text", member (body req) "prompt")];
         JObj [("inlineData", JObj [("mimeType", JStr "image/jpeg"); ("data", userData)])];
         JObj [("inlineData",
                JObj [("mimeType",
                       js_or (header_value (content_type productResponse)) (JStr "image/png"));
                      ("data", JStr (base64 productBuffer))])] ].

(** ** Sample requests, results and worlds *)

Definition try_on_body (userPhoto productImage prompt : JsVal) : JsVal :=
  JObj [("userPhoto", userPhoto); ("productImage", productImage); ("prompt", prompt)].

Definition dress_prompt : string := "Show how this dress would look on the person".

Definition dress_request : Request :=
  mkRequest "POST"
    (try_on_body (JStr "data:image/jpeg;base64,/9j/4AAQ")
       (JStr "https://example.com/product.jpg") (JStr dress_prompt)).

(** A provider result with one candidate whose first part is [part]. *)
Definition result_with_part (part : JsVal) : JsVal :=
  JObj [("response",
         JObj [("candidates",
                JArr [JObj [("content", JObj [("parts", JArr [part])])]])])].

Definition image_part (data : JsVal) : JsVal :=
  JObj [("inlineData", JObj [("mimeType", JStr "image/png"); ("data", data)])].

Definition text_part (text : string) : JsVal := JObj [("text", JStr text)].

Definition product_png : FetchResponse :=
  mkFetchResponse true "OK" (Ok (list_byte_of_string "Man")) (Some "image/webp").

Definition not_found : FetchResponse :=
  mkFetchResponse false "Not Found" (Ok []) (Some "text/html").

(** A world that answers every fetch with [response] and every provider call
    with [result]. *)
Definition sample_world (key : option string) (response : FetchResponse) (result : JsVal)
  : World :=
  mkWorld key (Some "production") (fun _ => Ok response) (fun _ _ _ => Ok result)
    1700000000000.

Definition comma_request : Request :=
  mkRequest "POST"
    (try_on_body (JStr "a,b,c") (JStr "https://example.com/product.jpg") (JStr dress_prompt)).

(** The provider answers with an image. *)
Definition image_world : World :=
  sample_world (Some "key") product_png (result_with_part (image_part (JStr "iVBORw0KGgo="))).

(** The provider answers with a text part, as a vision model does. *)
Definition text_world : World :=
  sample_world (Some "key") product_png
    (result_with_part (text_part "The dress would look elegant on the person.")).

(** The provider answers with an [inlineData] whose [data] is empty. *)
Definition empty_data_world : World :=
  sample_world (Some "key") product_png (result_with_part (image_part (JStr ""))).

(** The provider answers with no candidate (a blocked prompt). *)
Definition no_candidate_world : World :=
  sample_world (Some "key") product_png (JObj [("response", JObj [("candidates", JArr [])])]).

(** The product image is not found. *)
Definition not_found_world : World :=
  sample_world (Some "key") not_found JUndefined.

(** No API key is configured. *)
Definition no_key_world : World :=
  sample_world None product_png (result_with_part (image_part (JStr "iVBORw0KGgo="))).

(** The [console.error] calls of a trace. *)
Definition is_console_error (e : Event) : bool :=
  match e with
  | EvConsoleError _ _ => true
  | _ => false
  end.

Definition console_errors (trace : list Event) : list Event :=
  filter is_console_error trace.

(** [s] has a comma in it. *)
Fixpoint has_comma (s : string) : bool :=
  match s with
  | EmptyString => false
  | String c rest => Ascii.eqb c "," || has_comma rest
  end.

(** A character of the base64 output: a digit of the alphabet, or the pad. *)
Definition base64_char (c : ascii) : bool :=
  existsb (Ascii.eqb c) (list_ascii_of_string base64_alphabet) || Ascii.eqb c "=".

(** The network is down: every fetch rejects. *)
Definition offline_world : World :=
  mkWorld (Some "key") (Some "production")
    (fun _ => Throw (mkError "TypeError" "fetch failed")) (fun _ _ _ => Ok JUndefined)
    1700000000000.

(** The product image is answered, but its body cannot be read to the end. *)
Definition truncated_world : World :=
  sample_world (Some "key")
    (mkFetchResponse true "OK" (Throw (mkError "TypeError" "terminated")) (Some "image/png"))
    JUndefined.

(** The provider rejects the call. *)
Definition provider_down_world : World :=
  mkWorld (Some "key") (Some "production") (fun _ => Ok product_png)
    (fun _ _ _ => Throw (mkError "Error" "[GoogleGenerativeAI Error]: API key not valid"))
    1700000000000.

(** A request whose [userPhoto] is a number. *)
Definition number_photo_request : Request :=
  mkRequest "POST"
    (try_on_body (JNum "42") (JStr "https://example.com/product.jpg") (JStr dress_prompt)).

(** ** Properties *)

Example to_string_array :
  to_string (JArr [JNum "1.5"; JNull; JStr "x"; JArr [JBool true; JNum "-20"]])
  = Ok "1.5,,x,true,-20"
  /\ to_string (JArr [JStr "x"; JObj [("toString", JNum "1")]; JObj []])
     = Throw TypeError_to_primitive.
Proof. split; reflexivity. Qed.

Example split_examples :
  split "," "" = [""] /\ split "," "a,b,c" = ["a"; "b"; "c"]
  /\ split "," "a," = ["a"; ""] /\ split "," ",b" = [""; "b"].
Proof. repeat split. Qed.

Example base64_examples :
  base64 (list_byte_of_string "Man") = "TWFu"
  /\ base64 (list_byte_of_string "Ma") = "TWE="
  /\ base64 (list_byte_of_string "M") = "TQ=="
  /\ base64 (list_byte_of_string "light work.") = "bGlnaHQgd29yay4=".
Proof. repeat split. Qed.

Example dress_request_valid : valid_post dress_request.
Proof. repeat split. Qed.

(** *** Monad steps *)

Lemma bind_ret {A B : Type} (a : A) (k : A -> Run B) (tr : list Event) :
  bind (ret a) k tr = k a tr.
Proof. reflexivity. Qed.

Lemma bind_lift_ok {A B : Type} (r : Result A) (a : A) (k : A -> Run B) (tr : list Event) :
  r = Ok a -> bind (lift r) k tr = k a tr.
Proof. intros ->. reflexivity. Qed.

Lemma bind_lift_throw {A B : Type} (r : Result A) (e : JsError) (k : A -> Run B)
  (tr : list Event) :
  r = Throw e -> bind (lift r) k tr = (Throw e, tr).
Proof. intros ->. reflexivity. Qed.

Lemma bind_perform_ok {A B : Type} (ev : Event) (r : Result A) (a : A) (k : A -> Run B)
  (tr : list Event) :
  r = Ok a -> bind (perform ev r) k tr = k a (tr ++ [ev])%list.
Proof. intros ->. reflexivity. Qed.

Lemma bind_perform_throw {A B : Type} (ev : Event) (r : Result A) (e : JsError)
  (k : A -> Run B) (tr : list Event) :
  r = Throw e -> bind (perform ev r) k tr = (Throw e, (tr ++ [ev])%list).
Proof. intros ->. reflexivity. Qed.

(** *** The first two checks, common to both handlers *)

Lemma not_post_eqb (req : Request) : method req <> "POST" -> (method req =? "POST") = false.
Proof. intros H. now apply String.eqb_neq. Qed.

Lemma truthy_not_nullish (v : JsVal) (k : string) :
  truthy (member v k) = true -> nullish v = false.
Proof. destruct v; simpl; congruence. Qed.

Lemma valid_post_fields (req : Request) :
  valid_post req ->
  (method req =? "POST") = true
  /\ destructure_body (body req)
     = Ok (member (body req) "userPhoto", member (body req) "productImage",
           member (body req) "prompt")
  /\ missing_field (member (body req) "userPhoto") (member (body req) "productImage")
       (member (body req) "prompt") = false.
Proof.
  intros (Hm & Hu & Hp & Hq). repeat split.
  - now apply String.eqb_eq.
  - unfold destructure_body. now rewrite (truthy_not_nullish _ _ Hu).
  - unfold missing_field. now rewrite Hu, Hp, Hq.
Qed.

Lemma incomplete_post_fields (req : Request) :
  incomplete_post req ->
  (method req =? "POST") = true
  /\ destructure_body (body req)
     = Ok (member (body req) "userPhoto", member (body req) "productImage",
           member (body req) "prompt")
  /\ missing_field (member (body req) "userPhoto") (member (body req) "productImage")
       (member (body req) "prompt") = true.
Proof.
  intros (Hm & Hb & Hf). repeat split.
  - now apply String.eqb_eq.
  - unfold destructure_body. now rewrite Hb.
  - unfold missing_field.
    destruct Hf as [H | [H | H]]; rewrite H; cbn; rewrite ?orb_true_r; reflexivity.
Qed.

Lemma gemini_past_validation (w : World) (req : Request) (tr : list Event) :
  valid_post req ->
  Gemini.handler w req tr
  = if negb (key_configured w) then
      (Ok (mkResponse 500 (error_body Gemini.key_not_configured_message)), tr)
    else
      try_catch
        (Gemini.try_block w (env_value (GOOGLE_API_KEY w)) (member (body req) "userPhoto")
           (member (body req) "productImage") (member (body req) "prompt"))
        Gemini.catch_block tr.
Proof.
  intros Hv. destruct (valid_post_fields req Hv) as (Hm & Hd & Hf).
  unfold Gemini.handler, key_configured. rewrite Hm. cbn [negb].
  rewrite (bind_lift_ok _ _ _ _ Hd). cbn beta iota. rewrite Hf.
  destruct (truthy (env_value (GOOGLE_API_KEY w))); reflexivity.
Qed.

Lemma mock_past_validation (w : World) (req : Request) (tr : list Event) :
  valid_post req ->
  Mock.handler w req tr
  = (Ok (mkResponse 200 (JObj [("generatedImageUrl", JStr (Mock.generatedImageUrl w))])),
     (tr ++ [EvSetTimeout 2000])%list).
Proof.
  intros Hv. destruct (valid_post_fields req Hv) as (Hm & Hd & Hf).
  unfold Mock.handler. rewrite Hm. cbn [negb].
  rewrite (bind_lift_ok _ _ _ _ Hd). cbn beta iota. rewrite Hf.
  reflexivity.
Qed.

(** A request with a body but without one of the three fields is answered
    400 by both handlers, each naming the three fields in its message, and
    nothing is done to the outside. *)
Lemma incomplete_post_400 (w : World) (req : Request) :
  incomplete_post req ->
  exec (Gemini.handler w req)
  = (Ok (mkResponse 400
           (error_body "Missing required fields: userPhoto, productImage, or prompt")), [])
  /\ exec (Mock.handler w req)
     = (Ok (mkResponse 400
              (error_body "Missing required fields (userPhoto, productImage, prompt)")), []).
Proof.
  intros Hi. destruct (incomplete_post_fields req Hi) as (Hm & Hd & Hf).
  unfold exec, Gemini.handler, Mock.handler. rewrite Hm. cbn [negb].
  rewrite !(bind_lift_ok _ _ _ _ Hd). cbn beta iota. rewrite Hf.
  split; reflexivity.
Qed.

(** *** Method check *)

(** C4. A request whose method is not POST is answered 405 with the body
    [{ error: "Method not allowed" }] by both handlers, whatever its body
    is, and the trace of effects stays empty: no fetch, no provider call. *)
Theorem not_post_405 (w : World) (req : Request) :
  method req <> "POST" ->
  exec (Gemini.handler w req)
  = (Ok (mkResponse 405 (JObj [("error", JStr "Method not allowed")])), [])
  /\ exec (Mock.handler w req)
     = (Ok (mkResponse 405 (JObj [("error", JStr "Method not allowed")])), []).
Proof.
  intros H. apply not_post_eqb in H.
  unfold exec, Gemini.handler, Mock.handler. rewrite H. split; reflexivity.
Qed.

Lemma not_post_405_witness :
  exec (Gemini.handler (sample_world None not_found JUndefined) (mkRequest "GET" JUndefined))
  = (Ok (mkResponse 405 (JObj [("error", JStr "Method not allowed")])), [])
  /\ exec (Mock.handler (sample_world None not_found JUndefined) (mkRequest "GET" JUndefined))
     = (Ok (mkResponse 405 (JObj [("error", JStr "Method not allowed")])), []).
Proof.
  apply (not_post_405 (sample_world None not_found JUndefined) (mkRequest "GET" JUndefined)).
  simpl. discriminate.
Defined.

(** *** Absent body *)

(** C9. For a POST request whose body is [undefined] or [null], both
    handlers throw at the destructuring of [req.body]: the invocation ends
    with an uncaught [TypeError], no response (400 or other) is produced, and
    nothing was done before the throw. *)
Theorem absent_body_throws (w : World) (req : Request) :
  method req = "POST" ->
  body req = JUndefined \/ body req = JNull ->
  exec (Gemini.handler w req)
  = (Throw (TypeError_destructure (body req) "userPhoto" "req.body"), [])
  /\ exec (Mock.handler w req)
     = (Throw (TypeError_destructure (body req) "userPhoto" "req.body"), []).
Proof.
  intros Hm Hb. apply String.eqb_eq in Hm.
  unfold exec, Gemini.handler, Mock.handler. rewrite Hm. cbn [negb].
  assert (Hd : destructure_body (body req)
               = Throw (TypeError_destructure (body req) "userPhoto" "req.body")).
  { unfold destructure_body. destruct Hb as [-> | ->]; reflexivity. }
  rewrite !(bind_lift_throw _ _ _ _ Hd). split; reflexivity.
Qed.

Lemma absent_body_throws_witness :
  exec (Gemini.handler (sample_world (Some "k") product_png JUndefined)
          (mkRequest "POST" JNull))
  = (Throw (mkError "TypeError"
              "Cannot destructure property 'userPhoto' of 'req.body' as it is null."), [])
  /\ exec (Mock.handler (sample_world (Some "k") product_png JUndefined)
             (mkRequest "POST" JNull))
     = (Throw (mkError "TypeError"
                 "Cannot destructure property 'userPhoto' of 'req.body' as it is null."), []).
Proof.
  apply (absent_body_throws (sample_world (Some "k") product_png JUndefined)
           (mkRequest "POST" JNull)).
  - reflexivity.
  - right. reflexivity.
Defined.

(** *** Credential check *)

(** C5. For a valid POST request, when no API key is configured (the
    variable is unset, or set to the empty string) the Gemini handler answers
    500 and its trace is empty: the product image is not fetched and the
    provider is not called. *)
Theorem missing_key_500 (w : World) (req : Request) :
  valid_post req ->
  key_configured w = false ->
  exec (Gemini.handler w req)
  = (Ok (mkResponse 500 (error_body "Google API key not configured")), [])
  /\ network_calls (snd (exec (Gemini.handler w req))) = [].
Proof.
  intros Hv Hk. unfold exec. rewrite (gemini_past_validation w req [] Hv), Hk.
  split; reflexivity.
Qed.

Lemma missing_key_500_witness :
  exec (Gemini.handler (sample_world None product_png (result_with_part (image_part (JStr "QUJD"))))
          dress_request)
  = (Ok (mkResponse 500 (error_body "Google API key not configured")), [])
  /\ network_calls
       (snd (exec (Gemini.handler
                     (sample_world None product_png (result_with_part (image_part (JStr "QUJD"))))
                     dress_request))) = [].
Proof.
  apply (missing_key_500
           (sample_world None product_png (result_with_part (image_part (JStr "QUJD"))))
           dress_request).
  - repeat split.
  - reflexivity.
Defined.

(** *** The [try] block, step by step *)

Lemma try_catch_throw {A : Type} (m : Run A) (h : JsError -> Run A) (e : JsError)
  (tr tr' : list Event) :
  m tr = (Throw e, tr') -> try_catch m h tr = h e tr'.
Proof. unfold try_catch. intros ->. reflexivity. Qed.

Lemma try_catch_ok {A : Type} (m : Run A) (h : JsError -> Run A) (a : A)
  (tr tr' : list Event) :
  m tr = (Ok a, tr') -> try_catch m h tr = (Ok a, tr').
Proof. unfold try_catch. intros ->. reflexivity. Qed.

Lemma catch_block_run (e : JsError) (tr : list Event) :
  Gemini.catch_block e tr
  = (Ok (mkResponse 500 (error_body Gemini.generic_error_message)),
     (tr ++ [EvConsoleError Gemini.log_label (message_or_error e)])%list).
Proof. reflexivity. Qed.

(** Whatever the [try] block throws, the handler logs it and answers 500
    with the generic message. *)
Lemma gemini_caught (w : World) (req : Request) (e : JsError) (tr : list Event) :
  valid_post req ->
  key_configured w = true ->
  exec (Gemini.try_block w (env_value (GOOGLE_API_KEY w)) (member (body req) "userPhoto")
          (member (body req) "productImage") (member (body req) "prompt"))
  = (Throw e, tr) ->
  exec (Gemini.handler w req)
  = (Ok (mkResponse 500 (error_body Gemini.generic_error_message)),
     (tr ++ [EvConsoleError Gemini.log_label (message_or_error e)])%list).
Proof.
  intros Hv Hk Ht. unfold exec in *.
  rewrite (gemini_past_validation w req [] Hv), Hk. cbn [negb].
  rewrite (try_catch_throw _ _ _ _ _ Ht). apply catch_block_run.
Qed.

Lemma gemini_returned (w : World) (req : Request) (r : Response) (tr : list Event) :
  valid_post req ->
  key_configured w = true ->
  exec (Gemini.try_block w (env_value (GOOGLE_API_KEY w)) (member (body req) "userPhoto")
          (member (body req) "productImage") (member (body req) "prompt"))
  = (Ok r, tr) ->
  exec (Gemini.handler w req) = (Ok r, tr).
Proof.
  intros Hv Hk Ht. unfold exec in *.
  rewrite (gemini_past_validation w req [] Hv), Hk. cbn [negb].
  apply (try_catch_ok _ _ _ _ _ Ht).
Qed.


Lemma try_block_fetch_rejected (w : World) (apiKey userPhoto productImage prompt : JsVal)
  (e : JsError) :
  fetch w productImage = Throw e ->
  exec (Gemini.try_block w apiKey userPhoto productImage prompt)
  = (Throw e, [EvFetch productImage]).
Proof.
  intros H. unfold exec, Gemini.try_block.
  now rewrite (bind_perform_throw _ _ _ _ _ H).
Qed.

Lemma try_block_fetch_not_ok (w : World) (apiKey userPhoto productImage prompt : JsVal)
  (productResponse : FetchResponse) :
  fetch w productImage = Ok productResponse ->
  ok productResponse = false ->
  exec (Gemini.try_block w apiKey userPhoto productImage prompt)
  = (Throw (Error ("Failed to fetch product image: " ++ statusText productResponse)),
     [EvFetch productImage]).
Proof.
  intros H Hok. unfold exec, Gemini.try_block.
  rewrite (bind_perform_ok _ _ _ _ _ H), Hok. reflexivity.
Qed.

(** *** The user photo's payload *)

Lemma split_decompose (s : string) :
  split "," s
  = up_to_comma s
      :: match after_first_comma s with
         | Some tail => split "," tail
         | None => []
         end.
Proof.
  induction s as [| c rest IH]; [reflexivity |].
  cbn [split up_to_comma after_first_comma].
  destruct (Ascii.eqb c ","); [reflexivity |].
  rewrite IH. reflexivity.
Qed.

(** [split(",")[1] || userPhoto], in words. *)
Lemma userBase64_string (photo : string) :
  Gemini.userBase64 (JStr photo) = Ok (JStr (payload_second_segment photo)).
Proof.
  unfold Gemini.userBase64, call_split, and_then, payload_second_segment.
  rewrite split_decompose. cbn [map nth].
  destruct (after_first_comma photo) as [tail |]; [| reflexivity].
  rewrite split_decompose. cbn [map nth]. unfold js_or. cbn [truthy].
  destruct (up_to_comma tail =? ""); reflexivity.
Qed.

(** With at most one comma the payload is the text after the comma. *)
Lemma payload_single_comma (photo tail : string) :
  after_first_comma photo = Some tail ->
  after_first_comma tail = None ->
  payload_second_segment photo = payload_after_first_comma photo.
Proof.
  intros H1 H2. unfold payload_second_segment, payload_after_first_comma. rewrite H1.
  assert (Hall : up_to_comma tail = tail).
  { clear H1. induction tail as [| c rest IH]; [reflexivity |].
    cbn [up_to_comma after_first_comma] in *.
    destruct (Ascii.eqb c ","); [discriminate | now rewrite IH]. }
  now rewrite Hall.
Qed.

Lemma payload_no_comma (photo : string) :
  after_first_comma photo = None ->
  payload_second_segment photo = photo /\ payload_after_first_comma photo = photo.
Proof.
  intros H. unfold payload_second_segment, payload_after_first_comma. now rewrite H.
Qed.

(** *** Reading the provider's result *)

Lemma nullish_member (v : JsVal) (k : string) : nullish v = true -> nullish (member v k) = true.
Proof. destruct v; simpl; congruence. Qed.

Lemma nullish_element (v : JsVal) (i : nat) : nullish v = true -> nullish (element v i) = true.
Proof. destruct v; simpl; congruence. Qed.

Lemma nullish_falsy (v : JsVal) : nullish v = true -> truthy v = false.
Proof. destruct v; simpl; congruence. Qed.

Ltac lost_on_the_way :=
  right; split;
  [ unfold inlineData_of;
    repeat first [ assumption | apply nullish_member | apply nullish_element ]
  | eexists; eexists; reflexivity ].

(** The chained read either goes all the way and yields the field, or stops
    with a [TypeError] at the first [undefined] or [null] it reads from. *)
Lemma generatedBase64_cases (result : JsVal) :
  (nullish (inlineData_of result) = false
   /\ Gemini.generatedBase64 result = Ok (inline_image_of result))
  \/ (nullish (inlineData_of result) = true
      /\ exists base k, Gemini.generatedBase64 result = Throw (TypeError_read base k)).
Proof.
  unfold Gemini.generatedBase64, Gemini.get, Gemini.at_index, get_prop, get_index.
  destruct (nullish result) eqn:H0; cbn [and_then]; [lost_on_the_way |].
  destruct (nullish (member result "response")) eqn:H1; cbn [and_then]; [lost_on_the_way |].
  destruct (nullish (member (member result "response") "candidates")) eqn:H2;
    cbn [and_then]; [lost_on_the_way |].
  destruct (nullish (element (member (member result "response") "candidates") 0)) eqn:H3;
    cbn [and_then]; [lost_on_the_way |].
  destruct (nullish (member (element (member (member result "response") "candidates") 0)
                       "content")) eqn:H4; cbn [and_then]; [lost_on_the_way |].
  destruct (nullish (member (member (element (member (member result "response") "candidates")
                                       0) "content") "parts")) eqn:H5;
    cbn [and_then]; [lost_on_the_way |].
  destruct (nullish (element (member (member (element (member (member result "response")
                                                         "candidates") 0) "content") "parts")
                       0)) eqn:H6; cbn [and_then]; [lost_on_the_way |].
  fold (inlineData_of result).
  destruct (nullish (inlineData_of result)) eqn:H7.
  - right. split; [reflexivity | eexists; eexists; reflexivity].
  - left. split; reflexivity.
Qed.

Lemma map_result_image (result : JsVal) (shown : string) :
  lacks_image result = false ->
  to_string (inline_image_of result) = Ok shown ->
  Gemini.map_result result
  = Ok (mkResponse 200
          (JObj [("generatedImageUrl", JStr ("data:image/png;base64," ++ shown))])).
Proof.
  unfold lacks_image, Gemini.map_result. intros Hl Hs. apply negb_false_iff in Hl.
  destruct (generatedBase64_cases result) as [(_ & ->) | (Hn & _)].
  - cbn [and_then]. rewrite Hl. cbn [negb]. now rewrite Hs.
  - unfold inline_image_of in Hl.
    now rewrite (nullish_falsy _ (nullish_member _ "data" Hn)) in Hl.
Qed.

Lemma map_result_no_image (result : JsVal) :
  lacks_image result = true ->
  exists e,
    Gemini.map_result result = Throw e
    /\ (nullish (inlineData_of result) = false -> e = Gemini.no_image_error)
    /\ (nullish (inlineData_of result) = true -> err_name e = "TypeError").
Proof.
  unfold lacks_image, Gemini.map_result. intros Hl.
  destruct (generatedBase64_cases result) as [(Hn & ->) | (Hn & base & k & ->)];
    cbn [and_then].
  - rewrite Hl. exists Gemini.no_image_error. repeat split; congruence.
  - exists (TypeError_read base k). repeat split; congruence.
Qed.

(** The [try] block returns only through the success response. *)
Lemma try_block_ok_200 (w : World) (apiKey userPhoto productImage prompt : JsVal)
  (r : Response) (tr : list Event) :
  exec (Gemini.try_block w apiKey userPhoto productImage prompt) = (Ok r, tr) ->
  status r = 200%Z.
Proof.
  unfold exec, Gemini.try_block, bind, perform, lift, throw.
  destruct (fetch w productImage) as [resp | e]; [| discriminate].
  destruct (ok resp); cbn [negb]; [| discriminate].
  destruct (arrayBuffer resp) as [buf | e]; [| discriminate].
  destruct (Gemini.userBase64 userPhoto) as [ub | e]; [| discriminate].
  destruct (generateContent w apiKey Gemini.model_name _) as [result | e]; [| discriminate].
  unfold Gemini.map_result.
  destruct (Gemini.generatedBase64 result) as [g | e]; cbn [and_then]; [| discriminate].
  destruct (truthy g); cbn [negb]; [| discriminate].
  destruct (to_string g) as [shown | e]; cbn [and_then]; [| discriminate].
  intros H. injection H as <- _. reflexivity.
Qed.

(** *** Invocations that reach the provider *)

Section ProviderReached.

Variables (w : World) (req : Request).
Variables (productResponse : FetchResponse) (productBuffer : list byte) (photo : string).

Hypothesis Hvalid : valid_post req.
Hypothesis Hkey : key_configured w = true.
Hypothesis Hfetch : fetch w (member (body req) "productImage") = Ok productResponse.
Hypothesis Hok : ok productResponse = true.
Hypothesis Hbuffer : arrayBuffer productResponse = Ok productBuffer.
Hypothesis Hphoto : member (body req) "userPhoto" = JStr photo.

Let apiKey : JsVal := env_value (GOOGLE_API_KEY w).
Let sent : JsVal :=
  sent_content req (JStr (payload_second_segment photo)) productResponse productBuffer.
Let calls : list Event :=
  [EvFetch (member (body req) "productImage");
   EvGenerateContent apiKey "gemini-1.5-flash" sent].

Lemma try_block_reaches_provider :
  exec (Gemini.try_block w apiKey (member (body req) "userPhoto")
          (member (body req) "productImage") (member (body req) "prompt"))
  = (and_then (generateContent w apiKey "gemini-1.5-flash" sent) Gemini.map_result, calls).
Proof.
  unfold exec, Gemini.try_block.
  rewrite (bind_perform_ok _ _ _ _ _ Hfetch), Hok. cbn [negb].
  rewrite (bind_lift_ok _ _ _ _ Hbuffer), Hphoto.
  rewrite (bind_lift_ok _ _ _ _ (userBase64_string photo)).
  unfold bind, perform, lift, Gemini.model_name. cbn [app].
  fold apiKey. change (Gemini.content _ _ _ _) with sent.
  destruct (generateContent w apiKey "gemini-1.5-flash" sent); reflexivity.
Qed.

(** When the result holds a non-empty string at the expected path, the
    answer is 200 and the body carries that string, as it is, behind the
    PNG data-URL prefix. *)
Lemma image_result_200 (result : JsVal) (data : string) :
  generateContent w apiKey "gemini-1.5-flash" sent = Ok result ->
  inline_image_of result = JStr data ->
  data <> "" ->
  exec (Gemini.handler w req)
  = (Ok (mkResponse 200
           (JObj [("generatedImageUrl", JStr ("data:image/png;base64," ++ data))])),
     calls).
Proof.
  intros Hgen Hdata Hne. apply (gemini_returned w req _ _ Hvalid Hkey).
  fold apiKey. rewrite try_block_reaches_provider, Hgen. cbn [and_then].
  rewrite (map_result_image result data); [reflexivity | |].
  - unfold lacks_image. rewrite Hdata. cbn [truthy].
    apply String.eqb_neq in Hne. now rewrite Hne.
  - now rewrite Hdata.
Qed.

(** When the provider's result holds no truthy value at the expected path,
    the [try] block throws after the provider call, and the handler logs the
    error and answers 500 with the generic body. The error is the "no
    generated image" one when [inlineData] is there and its [data] is absent
    or falsy; when a level of the path is absent it is the engine's
    [TypeError] for the failed property read. *)
Theorem no_image_500 (result : JsVal) :
  generateContent w apiKey "gemini-1.5-flash" sent = Ok result ->
  lacks_image result = true ->
  exists e,
    exec (Gemini.try_block w apiKey (member (body req) "userPhoto")
            (member (body req) "productImage") (member (body req) "prompt"))
    = (Throw e, calls)
    /\ exec (Gemini.handler w req)
       = (Ok (mkResponse 500
                (error_body "Failed to generate try-on image. Please try again or check logs.")),
          (calls ++ [EvConsoleError "Error in image generation:" (message_or_error e)])%list)
    /\ (nullish (inlineData_of result) = false
        -> e = Error "No generated image in Gemini response")
    /\ (nullish (inlineData_of result) = true -> err_name e = "TypeError").
Proof.
  intros Hgen Hlacks.
  destruct (map_result_no_image result Hlacks) as (e & Hmap & Hthere & Hgone).
  assert (Htry : exec (Gemini.try_block w apiKey (member (body req) "userPhoto")
                         (member (body req) "productImage") (member (body req) "prompt"))
                 = (Throw e, calls)).
  { rewrite try_block_reaches_provider, Hgen. cbn [and_then]. now rewrite Hmap. }
  exists e. repeat split; try assumption.
  apply (gemini_caught w req e calls Hvalid Hkey Htry).
Qed.

Lemma handler_reaches_provider :
  exists outcome rest, exec (Gemini.handler w req) = (outcome, (calls ++ rest)%list).
Proof.
  pose proof try_block_reaches_provider as Htry.
  destruct (and_then (generateContent w apiKey "gemini-1.5-flash" sent) Gemini.map_result)
    as [r | e] eqn:Hres.
  - exists (Ok r), []. rewrite app_nil_r.
    apply (gemini_returned w req r _ Hvalid Hkey Htry).
  - eexists. eexists. apply (gemini_caught w req e _ Hvalid Hkey Htry).
Qed.

(** C10 (amended). The content sent to the provider tags the user photo
    [image/jpeg] whatever the data-URL prefix says, and its payload is the
    segment of [userPhoto] between its first comma and the next one (or the
    end of the string) when that segment is not empty, the whole string
    otherwise; with a single comma, that is the text after the comma (the
    whole string if that text is empty). *)
Theorem user_photo_payload :
  (exists outcome rest,
     exec (Gemini.handler w req)
     = (outcome,
        EvFetch (member (body req) "productImage")
          :: EvGenerateContent apiKey "gemini-1.5-flash"
               (JArr [ JObj [("text", member (body req) "prompt")];
                       JObj [("inlineData",
                              JObj [("mimeType", JStr "image/jpeg");
                                    ("data", JStr (payload_second_segment photo))])];
                       JObj [("inlineData",
                              JObj [("mimeType",
                                     js_or (header_value (content_type productResponse))
                                       (JStr "image/png"));
                                    ("data", JStr (base64 productBuffer))])] ])
          :: rest))
  /\ (forall tail,
        after_first_comma photo = Some tail -> after_first_comma tail = None ->
        payload_second_segment photo = payload_after_first_comma photo)
  /\ (after_first_comma photo = None -> payload_second_segment photo = photo).
Proof.
  split; [| split].
  - destruct handler_reaches_provider as (outcome & rest & H).
    exists outcome, rest. rewrite H. reflexivity.
  - intros tail. apply payload_single_comma.
  - intros H. apply (payload_no_comma photo H).
Qed.

End ProviderReached.

Lemma no_image_500_witness :
  exists e,
    exec (Gemini.try_block empty_data_world (JStr "key")
            (JStr "data:image/jpeg;base64,/9j/4AAQ") (JStr "https://example.com/product.jpg")
            (JStr dress_prompt))
    = (Throw e,
       [EvFetch (JStr "https://example.com/product.jpg");
        EvGenerateContent (JStr "key") "gemini-1.5-flash"
          (sent_content dress_request (JStr "/9j/4AAQ") product_png
             (list_byte_of_string "Man"))])
    /\ exec (Gemini.handler empty_data_world dress_request)
       = (Ok (mkResponse 500
                (error_body "Failed to generate try-on image. Please try again or check logs.")),
          ([EvFetch (JStr "https://example.com/product.jpg");
            EvGenerateContent (JStr "key") "gemini-1.5-flash"
              (sent_content dress_request (JStr "/9j/4AAQ") product_png
                 (list_byte_of_string "Man"))]
             ++ [EvConsoleError "Error in image generation:" (message_or_error e)])%list)
    /\ (nullish (inlineData_of (result_with_part (image_part (JStr "")))) = false
        -> e = Error "No generated image in Gemini response")
    /\ (nullish (inlineData_of (result_with_part (image_part (JStr "")))) = true
        -> err_name e = "TypeError").
Proof.
  apply (no_image_500 empty_data_world dress_request product_png (list_byte_of_string "Man")
           "data:image/jpeg;base64,/9j/4AAQ" dress_request_valid eq_refl eq_refl eq_refl
           eq_refl eq_refl (result_with_part (image_part (JStr ""))) eq_refl eq_refl).
Defined.

(** C7, at a result with no candidate (a blocked prompt). The result lacks
    the expected output field, but the chained read of line 85 throws the
    engine's [TypeError] at [candidates[0].content] before the check of lines
    86-88, which raises the "no generated image" error, is reached: the error
    thrown and logged is not that one (the answer is 500 all the same). *)
Lemma no_candidate_type_error :
  lacks_image (JObj [("response", JObj [("candidates", JArr [])])]) = true
  /\ exec (Gemini.try_block no_candidate_world (JStr "key")
             (JStr "data:image/jpeg;base64,/9j/4AAQ")
             (JStr "https://example.com/product.jpg") (JStr dress_prompt))
     = (Throw (mkError "TypeError" "Cannot read properties of undefined (reading 'content')"),
        [EvFetch (JStr "https://example.com/product.jpg");
         EvGenerateContent (JStr "key") "gemini-1.5-flash"
           (sent_content dress_request (JStr "/9j/4AAQ") product_png
              (list_byte_of_string "Man"))])
  /\ mkError "TypeError" "Cannot read properties of undefined (reading 'content')"
     <> Error "No generated image in Gemini response"
  /\ fst (exec (Gemini.handler no_candidate_world dress_request))
     = Ok (mkResponse 500
             (error_body "Failed to generate try-on image. Please try again or check logs.")).
Proof. repeat split. discriminate. Qed.

Lemma user_photo_payload_witness :
  (exists outcome rest,
     exec (Gemini.handler image_world dress_request)
     = (outcome,
        EvFetch (JStr "https://example.com/product.jpg")
          :: EvGenerateContent (JStr "key") "gemini-1.5-flash"
               (JArr [ JObj [("text", JStr dress_prompt)];
                       JObj [("inlineData",
                              JObj [("mimeType", JStr "image/jpeg");
                                    ("data", JStr (payload_second_segment
                                                     "data:image/jpeg;base64,/9j/4AAQ"))])];
                       JObj [("inlineData",
                              JObj [("mimeType", JStr "image/webp");
                                    ("data", JStr (base64 (list_byte_of_string "Man")))])] ])
          :: rest))
  /\ (forall tail,
        after_first_comma "data:image/jpeg;base64,/9j/4AAQ" = Some tail ->
        after_first_comma tail = None ->
        payload_second_segment "data:image/jpeg;base64,/9j/4AAQ"
        = payload_after_first_comma "data:image/jpeg;base64,/9j/4AAQ")
  /\ (after_first_comma "data:image/jpeg;base64,/9j/4AAQ" = None ->
      payload_second_segment "data:image/jpeg;base64,/9j/4AAQ"
      = "data:image/jpeg;base64,/9j/4AAQ").
Proof.
  apply (user_photo_payload image_world dress_request product_png (list_byte_of_string "Man")
           "data:image/jpeg;base64,/9j/4AAQ" dress_request_valid eq_refl eq_refl eq_refl
           eq_refl eq_refl).
Defined.

(** C10, as stated, fails on a photo with two commas: the payload sent for
    ["a,b,c"] is ["b"], the piece between the commas, while the substring
    after the first comma is ["b,c"]. *)
Lemma two_commas_payload :
  Gemini.userBase64 (JStr "a,b,c") = Ok (JStr "b")
  /\ payload_after_first_comma "a,b,c" = "b,c"
  /\ snd (exec (Gemini.handler image_world comma_request))
     = [EvFetch (JStr "https://example.com/product.jpg");
        EvGenerateContent (JStr "key") "gemini-1.5-flash"
          (sent_content comma_request (JStr "b") product_png (list_byte_of_string "Man"))].
Proof. repeat split. Qed.

(** *** Product-image fetch *)

(** C6. When the product-image fetch resolves to a response that is not
    ok, the [try] block throws an error whose message carries the upstream
    status text; the handler logs that message and answers 500 with the fixed
    generic body. The status text appears in the log only: the response is
    the same whatever the failed fetch reported. *)
Theorem fetch_not_ok_500 (w : World) (req : Request) (productResponse : FetchResponse) :
  valid_post req ->
  key_configured w = true ->
  fetch w (member (body req) "productImage") = Ok productResponse ->
  ok productResponse = false ->
  exec (Gemini.try_block w (env_value (GOOGLE_API_KEY w)) (member (body req) "userPhoto")
          (member (body req) "productImage") (member (body req) "prompt"))
  = (Throw (Error ("Failed to fetch product image: " ++ statusText productResponse)),
     [EvFetch (member (body req) "productImage")])
  /\ exec (Gemini.handler w req)
     = (Ok (mkResponse 500
              (JObj [("error",
                      JStr "Failed to generate try-on image. Please try again or check logs.")])),
        [EvFetch (member (body req) "productImage");
         EvConsoleError "Error in image generation:"
           (inl (JStr ("Failed to fetch product image: " ++ statusText productResponse)))])
  /\ (forall (w' : World) (productResponse' : FetchResponse),
        key_configured w' = true ->
        fetch w' (member (body req) "productImage") = Ok productResponse' ->
        ok productResponse' = false ->
        fst (exec (Gemini.handler w' req)) = fst (exec (Gemini.handler w req))).
Proof.
  intros Hv Hk Hf Hok.
  pose proof (try_block_fetch_not_ok w (env_value (GOOGLE_API_KEY w))
                (member (body req) "userPhoto") _ (member (body req) "prompt") _ Hf Hok)
    as Htry.
  split; [exact Htry | split].
  - rewrite (gemini_caught w req _ _ Hv Hk Htry). reflexivity.
  - intros w' r' Hk' Hf' Hok'.
    rewrite (gemini_caught w req _ _ Hv Hk Htry).
    rewrite (gemini_caught w' req _ _ Hv Hk'
               (try_block_fetch_not_ok w' _ (member (body req) "userPhoto") _
                  (member (body req) "prompt") _ Hf' Hok')).
    reflexivity.
Qed.

Lemma fetch_not_ok_500_witness :
  exec (Gemini.handler not_found_world dress_request)
  = (Ok (mkResponse 500
           (JObj [("error",
                   JStr "Failed to generate try-on image. Please try again or check logs.")])),
     [EvFetch (JStr "https://example.com/product.jpg");
      EvConsoleError "Error in image generation:"
        (inl (JStr "Failed to fetch product image: Not Found"))]).
Proof.
  apply (fetch_not_ok_500 not_found_world dress_request not_found dress_request_valid
           eq_refl eq_refl eq_refl).
Defined.

(** *** Server errors *)


(** C1 (amended). For a valid POST request the Gemini handler always
    answers, with 200 or with 500. An error thrown in the [try] block (fetch,
    payload assembly, provider call, response mapping) is caught, logged, and
    answered 500 with the fixed generic message. A missing credential is
    answered 500 before the [try] block, with a fixed message of its own
    ("Google API key not configured") and no log. Either way the body is a
    constant: no error detail reaches the caller. *)
Theorem server_errors (w : World) (req : Request) :
  valid_post req ->
  (key_configured w = false ->
   exec (Gemini.handler w req)
   = (Ok (mkResponse 500 (error_body "Google API key not configured")), []))
  /\ (key_configured w = true ->
      forall e tr,
        exec (Gemini.try_block w (env_value (GOOGLE_API_KEY w))
                (member (body req) "userPhoto") (member (body req) "productImage")
                (member (body req) "prompt"))
        = (Throw e, tr) ->
        exec (Gemini.handler w req)
        = (Ok (mkResponse 500
                 (error_body
                    "Failed to generate try-on image. Please try again or check logs.")),
           (tr ++ [EvConsoleError "Error in image generation:" (message_or_error e)])%list))
  /\ (exists response tr,
        exec (Gemini.handler w req) = (Ok response, tr)
        /\ (status response = 200%Z
            \/ response
               = mkResponse 500
                   (error_body
                      "Failed to generate try-on image. Please try again or check logs.")
            \/ response = mkResponse 500 (error_body "Google API key not configured"))).
Proof.
  intros Hv. split; [| split].
  - intros Hk. unfold exec. now rewrite (gemini_past_validation w req [] Hv), Hk.
  - intros Hk e tr Htry. apply (gemini_caught w req e tr Hv Hk Htry).
  - destruct (key_configured w) eqn:Hk.
    + destruct (exec (Gemini.try_block w (env_value (GOOGLE_API_KEY w))
                        (member (body req) "userPhoto") (member (body req) "productImage")
                        (member (body req) "prompt"))) as [[r | e] tr] eqn:Htry.
      * exists r, tr. split; [apply (gemini_returned w req r tr Hv Hk Htry) |].
        left. apply (try_block_ok_200 _ _ _ _ _ _ _ Htry).
      * eexists. eexists. split; [apply (gemini_caught w req e tr Hv Hk Htry) |].
        right. left. reflexivity.
    + eexists. eexists. split.
      * unfold exec. rewrite (gemini_past_validation w req [] Hv), Hk. reflexivity.
      * right. right. reflexivity.
Qed.

Lemma server_errors_witness :
  exec (Gemini.handler no_key_world dress_request)
  = (Ok (mkResponse 500 (error_body "Google API key not configured")), []).
Proof.
  apply (server_errors no_key_world dress_request dress_request_valid). reflexivity.
Defined.

(** C1, as stated, fails on the missing credential: its 500 carries a
    message that is not the generic one of the other server errors, and
    nothing is logged. *)
Lemma missing_key_not_generic :
  exec (Gemini.handler no_key_world dress_request)
  = (Ok (mkResponse 500 (error_body "Google API key not configured")), [])
  /\ exec (Gemini.handler not_found_world dress_request)
     = (Ok (mkResponse 500
              (error_body "Failed to generate try-on image. Please try again or check logs.")),
        [EvFetch (JStr "https://example.com/product.jpg");
         EvConsoleError "Error in image generation:"
           (inl (JStr "Failed to fetch product image: Not Found"))])
  /\ ~ (exists tr,
          exec (Gemini.handler no_key_world dress_request)
          = (Ok (mkResponse 500
                   (error_body
                      "Failed to generate try-on image. Please try again or check logs.")),
             tr)).
Proof.
  repeat split. intros (tr & H). discriminate H.
Qed.

(** *** Success *)

Lemma image_result_200_witness :
  exec (Gemini.handler image_world dress_request)
  = (Ok (mkResponse 200
           (JObj [("generatedImageUrl", JStr "data:image/png;base64,iVBORw0KGgo=")])),
     [EvFetch (JStr "https://example.com/product.jpg");
      EvGenerateContent (JStr "key") "gemini-1.5-flash"
        (sent_content dress_request (JStr "/9j/4AAQ") product_png
           (list_byte_of_string "Man"))]).
Proof.
  apply (image_result_200 image_world dress_request product_png (list_byte_of_string "Man")
           "data:image/jpeg;base64,/9j/4AAQ" dress_request_valid eq_refl eq_refl eq_refl
           eq_refl eq_refl (result_with_part (image_part (JStr "iVBORw0KGgo=")))
           "iVBORw0KGgo=" eq_refl eq_refl).
  discriminate.
Defined.

(** C2, at the text scenario. The request is the one of the documented
    scenario (prompt "Show how this dress would look on the person"), the key
    is configured, the product image is fetched, and the provider answers
    with a text part. The handler reads [inlineData.data] of that part,
    which throws, and answers 500 with the generic error: no body of the
    shape [{ description, message, type: "text_description" }] is produced. *)
Theorem text_result_500 :
  exec (Gemini.handler text_world dress_request)
  = (Ok (mkResponse 500
           (JObj [("error",
                   JStr "Failed to generate try-on image. Please try again or check logs.")])),
     [EvFetch (JStr "https://example.com/product.jpg");
      EvGenerateContent (JStr "key") "gemini-1.5-flash"
        (sent_content dress_request (JStr "/9j/4AAQ") product_png (list_byte_of_string "Man"));
      EvConsoleError "Error in image generation:"
        (inl (JStr "Cannot read properties of undefined (reading 'data')"))]).
Proof. reflexivity. Qed.

(** *** Field validation *)

Lemma incomplete_post_400_witness :
  exec (Gemini.handler image_world
          (mkRequest "POST" (JObj [("userPhoto", JStr "QUJD"); ("prompt", JStr "")])))
  = (Ok (mkResponse 400
           (error_body "Missing required fields: userPhoto, productImage, or prompt")), [])
  /\ exec (Mock.handler image_world
             (mkRequest "POST" (JObj [("userPhoto", JStr "QUJD"); ("prompt", JStr "")])))
     = (Ok (mkResponse 400
              (error_body "Missing required fields (userPhoto, productImage, prompt)")), []).
Proof.
  apply (incomplete_post_400 image_world
           (mkRequest "POST" (JObj [("userPhoto", JStr "QUJD"); ("prompt", JStr "")]))).
  repeat split. right. left. reflexivity.
Defined.

(** C3, at a POST request that has no body. All three fields are absent,
    yet neither handler answers 400: both throw at the destructuring, before
    the validation is reached. *)
Theorem no_body_no_400 :
  exec (Gemini.handler image_world (mkRequest "POST" JUndefined))
  = (Throw (mkError "TypeError"
              "Cannot destructure property 'userPhoto' of 'req.body' as it is undefined."),
     [])
  /\ exec (Mock.handler image_world (mkRequest "POST" JUndefined))
     = (Throw (mkError "TypeError"
                 "Cannot destructure property 'userPhoto' of 'req.body' as it is undefined."),
        []).
Proof. split; reflexivity. Qed.

(** *** The two handlers compared *)





(** *** Failures before and at the provider call *)

(** When the product-image fetch rejects (no response at all), the handler
    logs the rejection and answers 500 with the generic body; the provider is
    not called. The log shows the error's message, or the error itself when
    the message is empty. *)
Theorem fetch_rejected_500 (w : World) (req : Request) (e : JsError) :
  valid_post req ->
  key_configured w = true ->
  fetch w (member (body req) "productImage") = Throw e ->
  exec (Gemini.handler w req)
  = (Ok (mkResponse 500
           (error_body "Failed to generate try-on image. Please try again or check logs.")),
     [EvFetch (member (body req) "productImage");
      EvConsoleError "Error in image generation:"
        (if err_message e =? "" then inr e else inl (JStr (err_message e)))]).
Proof.
  intros Hv Hk Hf.
  rewrite (gemini_caught w req e _ Hv Hk (try_block_fetch_rejected w _ _ _ _ e Hf)).
  unfold message_or_error. cbn [truthy app].
  destruct (err_message e =? ""); reflexivity.
Qed.

Lemma fetch_rejected_500_witness :
  exec (Gemini.handler offline_world dress_request)
  = (Ok (mkResponse 500
           (error_body "Failed to generate try-on image. Please try again or check logs.")),
     [EvFetch (JStr "https://example.com/product.jpg");
      EvConsoleError "Error in image generation:" (inl (JStr "fetch failed"))]).
Proof.
  apply (fetch_rejected_500 offline_world dress_request (mkError "TypeError" "fetch failed")
           dress_request_valid eq_refl eq_refl).
Defined.

(** When the fetch resolves ok but reading the body ([arrayBuffer()])
    rejects, the handler logs the error and answers 500 with the generic
    body; the provider is not called. *)
Theorem buffer_rejected_500 (w : World) (req : Request) (productResponse : FetchResponse)
  (e : JsError) :
  valid_post req ->
  key_configured w = true ->
  fetch w (member (body req) "productImage") = Ok productResponse ->
  ok productResponse = true ->
  arrayBuffer productResponse = Throw e ->
  exec (Gemini.handler w req)
  = (Ok (mkResponse 500
           (error_body "Failed to generate try-on image. Please try again or check logs.")),
     [EvFetch (member (body req) "productImage");
      EvConsoleError "Error in image generation:" (message_or_error e)]).
Proof.
  intros Hv Hk Hf Hok Hb.
  apply (gemini_caught w req e [EvFetch (member (body req) "productImage")] Hv Hk).
  unfold exec, Gemini.try_block.
  rewrite (bind_perform_ok _ _ _ _ _ Hf), Hok. cbn [negb].
  now rewrite (bind_lift_throw _ _ _ _ Hb).
Qed.

Lemma buffer_rejected_500_witness :
  exec (Gemini.handler truncated_world dress_request)
  = (Ok (mkResponse 500
           (error_body "Failed to generate try-on image. Please try again or check logs.")),
     [EvFetch (JStr "https://example.com/product.jpg");
      EvConsoleError "Error in image generation:" (inl (JStr "terminated"))]).
Proof.
  apply (buffer_rejected_500 truncated_world dress_request
           (mkFetchResponse true "OK" (Throw (mkError "TypeError" "terminated"))
              (Some "image/png"))
           (mkError "TypeError" "terminated") dress_request_valid eq_refl eq_refl eq_refl
           eq_refl).
Defined.

Lemma call_split_not_string (v : JsVal) :
  truthy v = true ->
  (forall s, v <> JStr s) ->
  call_split "userPhoto" v = Throw (TypeError_not_function "userPhoto.split").
Proof.
  intros Ht Hs. destruct v; simpl in *; try discriminate; try reflexivity.
  now destruct (Hs s).
Qed.

(** The validation accepts any truthy [userPhoto]. When it is not a string
    (a number, [true], an array, an object), the product image is fetched
    all the same, then [userPhoto.split] fails: the handler logs the
    [TypeError] and answers 500, and the provider is not called. *)
Theorem non_string_photo_500 (w : World) (req : Request) (productResponse : FetchResponse)
  (productBuffer : list byte) :
  valid_post req ->
  key_configured w = true ->
  fetch w (member (body req) "productImage") = Ok productResponse ->
  ok productResponse = true ->
  arrayBuffer productResponse = Ok productBuffer ->
  (forall s, member (body req) "userPhoto" <> JStr s) ->
  exec (Gemini.handler w req)
  = (Ok (mkResponse 500
           (error_body "Failed to generate try-on image. Please try again or check logs.")),
     [EvFetch (member (body req) "productImage");
      EvConsoleError "Error in image generation:"
        (inl (JStr "userPhoto.split is not a function"))]).
Proof.
  intros Hv Hk Hf Hok Hb Hs.
  assert (Hu : truthy (member (body req) "userPhoto") = true) by apply Hv.
  apply (gemini_caught w req (TypeError_not_function "userPhoto.split")
           [EvFetch (member (body req) "productImage")] Hv Hk).
  unfold exec, Gemini.try_block.
  rewrite (bind_perform_ok _ _ _ _ _ Hf), Hok. cbn [negb].
  rewrite (bind_lift_ok _ _ _ _ Hb).
  apply bind_lift_throw. unfold Gemini.userBase64.
  now rewrite (call_split_not_string _ Hu Hs).
Qed.

Lemma non_string_photo_500_witness :
  exec (Gemini.handler image_world number_photo_request)
  = (Ok (mkResponse 500
           (error_body "Failed to generate try-on image. Please try again or check logs.")),
     [EvFetch (JStr "https://example.com/product.jpg");
      EvConsoleError "Error in image generation:"
        (inl (JStr "userPhoto.split is not a function"))]).
Proof.
  apply (non_string_photo_500 image_world number_photo_request product_png
           (list_byte_of_string "Man")).
  - repeat split.
  - reflexivity.
  - reflexivity.
  - reflexivity.
  - reflexivity.
  - intros s. simpl. discriminate.
Defined.

(** When the provider call rejects, the handler logs the rejection and
    answers 500 with the generic body, after one fetch and one provider call
    (the call is not tried again). *)
Theorem provider_rejected_500 (w : World) (req : Request) (productResponse : FetchResponse)
  (productBuffer : list byte) (photo : string) (e : JsError) :
  valid_post req ->
  key_configured w = true ->
  fetch w (member (body req) "productImage") = Ok productResponse ->
  ok productResponse = true ->
  arrayBuffer productResponse = Ok productBuffer ->
  member (body req) "userPhoto" = JStr photo ->
  generateContent w (env_value (GOOGLE_API_KEY w)) "gemini-1.5-flash"
    (sent_content req (JStr (payload_second_segment photo)) productResponse productBuffer)
  = Throw e ->
  exec (Gemini.handler w req)
  = (Ok (mkResponse 500
           (error_body "Failed to generate try-on image. Please try again or check logs.")),
     [EvFetch (member (body req) "productImage");
      EvGenerateContent (env_value (GOOGLE_API_KEY w)) "gemini-1.5-flash"
        (sent_content req (JStr (payload_second_segment photo)) productResponse
           productBuffer);
      EvConsoleError "Error in image generation:" (message_or_error e)]).
Proof.
  intros Hv Hk Hf Hok Hb Hp Hg.
  pose proof (try_block_reaches_provider w req productResponse productBuffer photo
                Hf Hok Hb Hp) as Htry.
  rewrite Hg in Htry. cbn [and_then] in Htry.
  apply (gemini_caught w req e _ Hv Hk Htry).
Qed.

Lemma provider_rejected_500_witness :
  exec (Gemini.handler provider_down_world dress_request)
  = (Ok (mkResponse 500
           (error_body "Failed to generate try-on image. Please try again or check logs.")),
     [EvFetch (JStr "https://example.com/product.jpg");
      EvGenerateContent (JStr "key") "gemini-1.5-flash"
        (sent_content dress_request (JStr "/9j/4AAQ") product_png (list_byte_of_string "Man"));
      EvConsoleError "Error in image generation:"
        (inl (JStr "[GoogleGenerativeAI Error]: API key not valid"))]).
Proof.
  apply (provider_rejected_500 provider_down_world dress_request product_png
           (list_byte_of_string "Man") "data:image/jpeg;base64,/9j/4AAQ"
           (mkError "Error" "[GoogleGenerativeAI Error]: API key not valid")
           dress_request_valid eq_refl eq_refl eq_refl eq_refl eq_refl eq_refl).
Defined.

(** *** Every run of the Gemini handler *)

(** The [try] block ends in one of three ways: a throw after the fetch, a
    throw after the provider call, or the success response after both. *)
Lemma try_block_cases (w : World) (apiKey userPhoto productImage prompt : JsVal) :
  (exists e,
     exec (Gemini.try_block w apiKey userPhoto productImage prompt)
     = (Throw e, [EvFetch productImage]))
  \/ (exists e content,
        exec (Gemini.try_block w apiKey userPhoto productImage prompt)
        = (Throw e, [EvFetch productImage; EvGenerateContent apiKey "gemini-1.5-flash" content]))
  \/ (exists data content,
        exec (Gemini.try_block w apiKey userPhoto productImage prompt)
        = (Ok (mkResponse 200
                 (JObj [("generatedImageUrl", JStr ("data:image/png;base64," ++ data))])),
           [EvFetch productImage; EvGenerateContent apiKey "gemini-1.5-flash" content])).
Proof.
  unfold exec, Gemini.try_block, bind, perform, lift, throw, Gemini.model_name. cbn [app].
  destruct (fetch w productImage) as [resp | e]; [| left; eauto].
  destruct (ok resp); cbn [negb]; [| left; eauto].
  destruct (arrayBuffer resp) as [buf | e]; [| left; eauto].
  destruct (Gemini.userBase64 userPhoto) as [ub | e]; [| left; eauto].
  destruct (generateContent w apiKey "gemini-1.5-flash" _) as [result | e];
    [| right; left; do 2 eexists; reflexivity].
  unfold Gemini.map_result.
  destruct (Gemini.generatedBase64 result) as [g | e]; cbn [and_then];
    [| right; left; do 2 eexists; reflexivity].
  destruct (truthy g); cbn [negb]; [| right; left; do 2 eexists; reflexivity].
  destruct (to_string g) as [shown | e]; cbn [and_then]; [right; right | right; left];
    do 2 eexists; reflexivity.
Qed.

Lemma complete_post_valid (req : Request) :
  (method req =? "POST") = true ->
  missing_field (member (body req) "userPhoto") (member (body req) "productImage")
    (member (body req) "prompt") = false ->
  valid_post req.
Proof.
  intros Hm Hf. apply String.eqb_eq in Hm. unfold missing_field in Hf.
  apply orb_false_iff in Hf as [Hf Hq]. apply orb_false_iff in Hf as [Hu Hp].
  apply negb_false_iff in Hu, Hp, Hq. repeat split; assumption.
Qed.

Lemma Ok_inj {A : Type} (a b : A) : Ok a = Ok b -> a = b.
Proof. congruence. Qed.

(** The seven ways an invocation of the Gemini handler can go. *)
Lemma gemini_run_cases (w : World) (req : Request) :
  (method req = "POST" /\ nullish (body req) = true
   /\ exec (Gemini.handler w req)
      = (Throw (TypeError_destructure (body req) "userPhoto" "req.body"), []))
  \/ (method req <> "POST"
      /\ exec (Gemini.handler w req)
         = (Ok (mkResponse 405 (error_body "Method not allowed")), []))
  \/ (method req = "POST" /\ nullish (body req) = false
      /\ exec (Gemini.handler w req)
         = (Ok (mkResponse 400
                  (error_body "Missing required fields: userPhoto, productImage, or prompt")),
            []))
  \/ (valid_post req /\ key_configured w = false
      /\ exec (Gemini.handler w req)
         = (Ok (mkResponse 500 (error_body "Google API key not configured")), []))
  \/ (valid_post req /\ key_configured w = true
      /\ exists detail,
           exec (Gemini.handler w req)
           = (Ok (mkResponse 500
                    (error_body
                       "Failed to generate try-on image. Please try again or check logs.")),
              [EvFetch (member (body req) "productImage");
               EvConsoleError "Error in image generation:" detail]))
  \/ (valid_post req /\ key_configured w = true
      /\ exists content detail,
           exec (Gemini.handler w req)
           = (Ok (mkResponse 500
                    (error_body
                       "Failed to generate try-on image. Please try again or check logs.")),
              [EvFetch (member (body req) "productImage");
               EvGenerateContent (env_value (GOOGLE_API_KEY w)) "gemini-1.5-flash" content;
               EvConsoleError "Error in image generation:" detail]))
  \/ (valid_post req /\ key_configured w = true
      /\ exists content data,
           exec (Gemini.handler w req)
           = (Ok (mkResponse 200
                    (JObj [("generatedImageUrl", JStr ("data:image/png;base64," ++ data))])),
              [EvFetch (member (body req) "productImage");
               EvGenerateContent (env_value (GOOGLE_API_KEY w)) "gemini-1.5-flash" content])).
Proof.
  destruct (method req =? "POST") eqn:Hm.
  2:{ right; left. apply String.eqb_neq in Hm. split; [assumption |].
      apply not_post_eqb in Hm. unfold exec, Gemini.handler. now rewrite Hm. }
  destruct (nullish (body req)) eqn:Hn.
  { left. split; [now apply String.eqb_eq | split; [reflexivity |]].
    unfold exec, Gemini.handler, destructure_body. rewrite Hm, Hn. reflexivity. }
  destruct (missing_field (member (body req) "userPhoto") (member (body req) "productImage")
              (member (body req) "prompt")) eqn:Hf.
  { right; right; left. split; [now apply String.eqb_eq | split; [reflexivity |]].
    unfold exec, Gemini.handler, destructure_body. rewrite Hm, Hn. cbn [negb].
    unfold bind, lift. now rewrite Hf. }
  pose proof (complete_post_valid req Hm Hf) as Hv.
  destruct (key_configured w) eqn:Hk.
  2:{ right; right; right; left. split; [assumption | split; [reflexivity |]].
      unfold exec. now rewrite (gemini_past_validation w req [] Hv), Hk. }
  do 4 right.
  destruct (try_block_cases w (env_value (GOOGLE_API_KEY w)) (member (body req) "userPhoto")
              (member (body req) "productImage") (member (body req) "prompt"))
    as [(e & Htry) | [(e & content & Htry) | (data & content & Htry)]].
  - left. split; [assumption | split; [reflexivity |]].
    exists (message_or_error e). apply (gemini_caught w req e _ Hv Hk Htry).
  - right; left. split; [assumption | split; [reflexivity |]].
    exists content, (message_or_error e). apply (gemini_caught w req e _ Hv Hk Htry).
  - right; right. split; [assumption | split; [reflexivity |]].
    exists content, data. apply (gemini_returned w req _ _ Hv Hk Htry).
Qed.

Ltac each_run w req :=
  destruct (gemini_run_cases w req)
    as [(Hm & Hn & Hrun)
       | [(Hm & Hrun)
         | [(Hm & Hn & Hrun)
           | [(Hv & Hk & Hrun)
             | [(Hv & Hk & detail & Hrun)
               | [(Hv & Hk & content & detail & Hrun)
                 | (Hv & Hk & content & data & Hrun)]]]]]].

(** The Gemini handler fails to answer only on a POST request without a
    body. In every other case it answers, with one of five responses: 405,
    400, 500 for the missing key, 500 with the generic message, or 200 with
    a [generatedImageUrl] that starts with the PNG data-URL prefix. *)
Theorem gemini_outcomes (w : World) (req : Request) :
  ((exists e, fst (exec (Gemini.handler w req)) = Throw e)
   <-> method req = "POST" /\ nullish (body req) = true)
  /\ (forall response,
        fst (exec (Gemini.handler w req)) = Ok response ->
        response = mkResponse 405 (error_body "Method not allowed")
        \/ response
           = mkResponse 400
               (error_body "Missing required fields: userPhoto, productImage, or prompt")
        \/ response = mkResponse 500 (error_body "Google API key not configured")
        \/ response
           = mkResponse 500
               (error_body "Failed to generate try-on image. Please try again or check logs.")
        \/ exists data,
             response
             = mkResponse 200
                 (JObj [("generatedImageUrl", JStr ("data:image/png;base64," ++ data))])).
Proof.
  split.
  - split.
    + intros (e & He). each_run w req; rewrite Hrun in He; cbn [fst] in He;
        try discriminate He.
      split; assumption.
    + intros (Hm & Hn). unfold exec, Gemini.handler, destructure_body.
      apply String.eqb_eq in Hm. rewrite Hm, Hn. eexists. reflexivity.
  - intros response Hr.
    each_run w req; rewrite Hrun in Hr; cbn [fst] in Hr;
      try discriminate Hr; apply Ok_inj in Hr; subst response; eauto 10.
Qed.

(** The network discipline of the Gemini handler, on every request: at
    most one fetch, of the request's [productImage], and at most one provider
    call, made after the fetch with the configured key and the model
    [gemini-1.5-flash]; never a retry, never a timer. [console.error] is
    called at most once, as the last effect, and exactly when the answer is
    the generic 500. A 200 is answered only after both calls. *)
Theorem gemini_effects (w : World) (req : Request) :
  (network_calls (snd (exec (Gemini.handler w req))) = []
   \/ network_calls (snd (exec (Gemini.handler w req)))
      = [EvFetch (member (body req) "productImage")]
   \/ exists content,
        network_calls (snd (exec (Gemini.handler w req)))
        = [EvFetch (member (body req) "productImage");
           EvGenerateContent (env_value (GOOGLE_API_KEY w)) "gemini-1.5-flash" content])
  /\ (forall ms, ~ In (EvSetTimeout ms) (snd (exec (Gemini.handler w req))))
  /\ (fst (exec (Gemini.handler w req))
      = Ok (mkResponse 500
              (error_body "Failed to generate try-on image. Please try again or check logs."))
      /\ (exists before detail,
            snd (exec (Gemini.handler w req))
            = (before ++ [EvConsoleError "Error in image generation:" detail])%list
            /\ console_errors before = [])
      \/ fst (exec (Gemini.handler w req))
         <> Ok (mkResponse 500
                  (error_body
                     "Failed to generate try-on image. Please try again or check logs."))
         /\ console_errors (snd (exec (Gemini.handler w req))) = [])
  /\ (forall response,
        fst (exec (Gemini.handler w req)) = Ok response -> status response = 200%Z ->
        exists content,
          snd (exec (Gemini.handler w req))
          = [EvFetch (member (body req) "productImage");
             EvGenerateContent (env_value (GOOGLE_API_KEY w)) "gemini-1.5-flash" content]).
Proof.
  each_run w req; rewrite Hrun; cbn [fst snd]; repeat apply conj.
  all: lazymatch goal with
       | |- forall ms, ~ In (EvSetTimeout ms) _ =>
           intros ms Hin; cbn [In] in Hin;
           repeat (destruct Hin as [Hin | Hin]; [discriminate Hin |]); exact Hin
       | |- forall response, _ -> _ -> _ =>
           intros response Hr Hs;
           first [ discriminate Hr
                 | apply Ok_inj in Hr; subst response;
                   first [discriminate Hs | eexists; reflexivity] ]
       | |- network_calls _ = _ \/ _ =>
           first [ left; reflexivity
                 | right; left; reflexivity
                 | right; right; eexists; reflexivity ]
       | |- _ =>
           first [ right; split; [discriminate | reflexivity]
                 | left; split; [reflexivity |];
                   first [ exists [EvFetch (member (body req) "productImage")], detail;
                           split; reflexivity
                         | eexists [_; _], detail; split; reflexivity ] ]
       end.
Qed.

(** *** Every run of the mocked handler *)

Lemma missing_field_which (u p q : JsVal) :
  missing_field u p q = true ->
  truthy u = false \/ truthy p = false \/ truthy q = false.
Proof.
  unfold missing_field. destruct (truthy u), (truthy p), (truthy q); simpl; auto.
Qed.

(** The mocked handler goes one of four ways: it throws on a POST without
    body, answers 405 or 400, or answers 200 with its placeholder URL after
    its two-second timer. Its [catch] block is never reached: it never
    answers 500, never calls [console.error], and never touches the network. *)
Theorem mock_outcomes (w : World) (req : Request) :
  ((method req = "POST" /\ nullish (body req) = true
    /\ exec (Mock.handler w req)
       = (Throw (TypeError_destructure (body req) "userPhoto" "req.body"), []))
   \/ (method req <> "POST"
       /\ exec (Mock.handler w req)
          = (Ok (mkResponse 405 (error_body "Method not allowed")), []))
   \/ (incomplete_post req
       /\ exec (Mock.handler w req)
          = (Ok (mkResponse 400
                   (error_body "Missing required fields (userPhoto, productImage, prompt)")),
             []))
   \/ (valid_post req
       /\ exec (Mock.handler w req)
          = (Ok (mkResponse 200
                   (JObj [("generatedImageUrl",
                           JStr (if match NODE_ENV w with
                                    | Some env => env =? "development"
                                    | None => false
                                    end
                                 then "https://via.placeholder.com/300?text=Try-On+Preview"
                                 else "https://your-domain.com/generated/"
                                        ++ Z_to_string (Date_now w) ++ ".jpg"))])),
             [EvSetTimeout 2000])))
  /\ (forall response,
        fst (exec (Mock.handler w req)) = Ok response -> status response <> 500%Z)
  /\ console_errors (snd (exec (Mock.handler w req))) = []
  /\ network_calls (snd (exec (Mock.handler w req))) = [].
Proof.
  assert (Hcases :
    (method req = "POST" /\ nullish (body req) = true
     /\ exec (Mock.handler w req)
        = (Throw (TypeError_destructure (body req) "userPhoto" "req.body"), []))
    \/ (method req <> "POST"
        /\ exec (Mock.handler w req)
           = (Ok (mkResponse 405 (error_body "Method not allowed")), []))
    \/ (incomplete_post req
        /\ exec (Mock.handler w req)
           = (Ok (mkResponse 400
                    (error_body "Missing required fields (userPhoto, productImage, prompt)")),
              []))
    \/ (valid_post req
        /\ exec (Mock.handler w req)
           = (Ok (mkResponse 200
                    (JObj [("generatedImageUrl", JStr (Mock.generatedImageUrl w))])),
              [EvSetTimeout 2000]))).
  { destruct (method req =? "POST") eqn:Hm.
    2:{ right; left. apply String.eqb_neq in Hm. split; [assumption |].
        apply not_post_eqb in Hm. unfold exec, Mock.handler. now rewrite Hm. }
    destruct (nullish (body req)) eqn:Hn.
    { left. split; [now apply String.eqb_eq | split; [reflexivity |]].
      unfold exec, Mock.handler, destructure_body. rewrite Hm, Hn. reflexivity. }
    destruct (missing_field (member (body req) "userPhoto")
                (member (body req) "productImage") (member (body req) "prompt")) eqn:Hf.
    - right; right; left.
      assert (Hi : incomplete_post req).
      { split; [now apply String.eqb_eq | split; [assumption |]].
        apply (missing_field_which _ _ _ Hf). }
      split; [assumption | apply (incomplete_post_400 w req Hi)].
    - right; right; right. pose proof (complete_post_valid req Hm Hf) as Hv.
      split; [assumption |]. apply (mock_past_validation w req [] Hv). }
  split; [exact Hcases |].
  destruct Hcases as [(_ & _ & ->) | [(_ & ->) | [(_ & ->) | (_ & ->)]]]; cbn [fst snd];
    repeat apply conj; try reflexivity; intros response Hr;
    first [discriminate Hr | apply Ok_inj in Hr; subst response; discriminate].
Qed.

Lemma append_length (a b : string) :
  String.length (a ++ b) = String.length a + String.length b.
Proof. induction a as [| c a IH]; cbn [append String.length]; [reflexivity | now rewrite IH]. Qed.

Lemma append_inv_tail (a b t : string) : a ++ t = b ++ t -> a = b.
Proof.
  revert b. induction a as [| c a IH]; intros [| d b] H; cbn [append] in H.
  - reflexivity.
  - apply (f_equal String.length) in H. cbn [String.length] in H.
    rewrite append_length in H. lia.
  - apply (f_equal String.length) in H. cbn [String.length] in H.
    rewrite append_length in H. lia.
  - injection H as -> H. f_equal. apply (IH b H).
Qed.

Lemma Z_to_string_inj (a b : Z) : Z_to_string a = Z_to_string b -> a = b.
Proof.
  unfold Z_to_string. intros H. apply DecimalZ.to_int_inj.
  apply (f_equal NilEmpty.int_of_string) in H. rewrite !NilEmpty.isi in H. congruence.
Qed.

(** Outside development the mocked URL is as unique as the clock: two valid
    requests get the same answer exactly when [Date.now()] reads the same
    for both. In development the answer is the fixed preview URL, whatever
    the clock reads. *)
Theorem mock_url_unique (w1 w2 : World) (req : Request) :
  valid_post req ->
  (NODE_ENV w1 = Some "development" ->
   fst (exec (Mock.handler w1 req))
   = Ok (mkResponse 200
           (JObj [("generatedImageUrl",
                   JStr "https://via.placeholder.com/300?text=Try-On+Preview")])))
  /\ (NODE_ENV w1 <> Some "development" -> NODE_ENV w2 <> Some "development" ->
      (fst (exec (Mock.handler w1 req)) = fst (exec (Mock.handler w2 req))
       <-> Date_now w1 = Date_now w2)).
Proof.
  intros Hv. unfold exec. rewrite !(mock_past_validation _ req [] Hv). cbn [fst].
  assert (Hprod : forall w, NODE_ENV w <> Some "development" ->
            Mock.generatedImageUrl w
            = "https://your-domain.com/generated/" ++ Z_to_string (Date_now w) ++ ".jpg").
  { intros w Hw. unfold Mock.generatedImageUrl.
    destruct (NODE_ENV w) as [env |]; [| reflexivity].
    destruct (String.eqb_spec env "development") as [-> | _]; [now destruct Hw | reflexivity]. }
  split.
  - intros H1. unfold Mock.generatedImageUrl. rewrite H1. reflexivity.
  - intros H1 H2. rewrite (Hprod w1 H1), (Hprod w2 H2). split.
    + intros H. apply Ok_inj in H. injection H as H.
      apply append_inv_tail in H. apply (Z_to_string_inj _ _ H).
    + intros ->. reflexivity.
Qed.

Lemma mock_url_unique_witness :
  fst (exec (Mock.handler image_world dress_request))
  = fst (exec (Mock.handler no_key_world dress_request))
  <-> Date_now image_world = Date_now no_key_world.
Proof.
  apply (mock_url_unique image_world no_key_world dress_request dress_request_valid).
  - simpl. discriminate.
  - simpl. discriminate.
Defined.

(** *** The split and the data-URL prefix *)

Lemma split_not_nil (s : string) : split "," s <> [].
Proof. rewrite split_decompose. discriminate. Qed.

Lemma up_to_comma_no_comma (s : string) : has_comma (up_to_comma s) = false.
Proof.
  induction s as [| c rest IH]; [reflexivity |]. cbn [up_to_comma].
  destruct (Ascii.eqb c ",") eqn:Hc; [reflexivity |]. cbn [has_comma]. now rewrite Hc.
Qed.

Lemma up_to_comma_all (s : string) : has_comma s = false -> up_to_comma s = s.
Proof.
  induction s as [| c rest IH]; [reflexivity |]. cbn [has_comma up_to_comma].
  destruct (Ascii.eqb c ","); [discriminate |]. cbn [orb]. intros H. now rewrite IH.
Qed.

Lemma after_first_comma_prefix (prefix rest : string) :
  has_comma prefix = false ->
  after_first_comma (prefix ++ String "," rest) = Some rest.
Proof.
  induction prefix as [| c prefix IH]; [reflexivity |].
  cbn [has_comma append after_first_comma].
  destruct (Ascii.eqb c ","); [discriminate |]. cbn [orb]. exact IH.
Qed.

(** [split(",")] cuts at the commas and nowhere else: no piece has a comma,
    there is always a first piece, and joining the pieces with commas gives
    the string back. *)
Theorem split_join (s : string) :
  String.concat "," (split "," s) = s
  /\ Forall (fun piece => has_comma piece = false) (split "," s)
  /\ split "," s <> [].
Proof.
  split; [| split; [| apply split_not_nil]].
  - induction s as [| c rest IH]; [reflexivity |].
    pose proof (split_not_nil rest) as Hne. cbn [split].
    destruct (split "," rest) as [| piece pieces] eqn:Hs; [now destruct Hne |].
    destruct (Ascii.eqb_spec c ",") as [-> | Hc].
    + change (String.concat "," ("" :: piece :: pieces))
        with ("" ++ "," ++ String.concat "," (piece :: pieces)).
      now rewrite IH.
    + destruct pieces as [| piece' pieces]; cbn [String.concat append] in *; now rewrite IH.
  - induction s as [| c rest IH]; [repeat constructor |]. cbn [split].
    destruct (Ascii.eqb c ",") eqn:Hc; [constructor; [reflexivity | exact IH] |].
    destruct (split "," rest) as [| piece pieces]; [repeat constructor; cbn; now rewrite Hc |].
    inversion IH as [| ? ? Hp Hps]; subst. constructor; [| assumption].
    cbn [has_comma]. now rewrite Hc, Hp.
Qed.

(** A data URL loses its prefix: for a prefix and a payload without commas
    (as base64 text is), the user payload of [prefix,payload] is the payload;
    when the payload is empty it is the whole string instead. In particular
    the [generatedImageUrl] of a success response, sent back as [userPhoto],
    yields the generated data again. *)
Theorem data_url_prefix_stripped (prefix data : string) :
  has_comma prefix = false ->
  has_comma data = false ->
  Gemini.userBase64 (JStr (prefix ++ "," ++ data))
  = Ok (JStr (if data =? "" then prefix ++ "," else data))
  /\ (data <> "" ->
      Gemini.userBase64 (JStr ("data:image/png;base64," ++ data)) = Ok (JStr data)).
Proof.
  intros Hp Hd.
  assert (Hgen : forall p, has_comma p = false ->
            Gemini.userBase64 (JStr (p ++ "," ++ data))
            = Ok (JStr (if data =? "" then p ++ "," else data))).
  { intros p Hpc. rewrite userBase64_string. unfold payload_second_segment.
    change (p ++ "," ++ data) with (p ++ String "," data).
    rewrite (after_first_comma_prefix p data Hpc), (up_to_comma_all data Hd).
    destruct (String.eqb_spec data "") as [-> | _]; reflexivity. }
  split; [apply (Hgen prefix Hp) |].
  intros Hne. apply String.eqb_neq in Hne.
  pose proof (Hgen "data:image/png;base64" eq_refl) as H. rewrite Hne in H. exact H.
Qed.

Lemma data_url_prefix_stripped_witness :
  Gemini.userBase64 (JStr "data:image/jpeg;base64,/9j/4AAQ") = Ok (JStr "/9j/4AAQ").
Proof.
  exact (proj1 (data_url_prefix_stripped "data:image/jpeg;base64" "/9j/4AAQ" eq_refl eq_refl)).
Defined.

(** The payload taken from a non-empty [userPhoto] string is never empty,
    and it is either the whole string or a piece without a comma. *)
Theorem user_payload_nonempty (photo : string) :
  photo <> "" ->
  exists data,
    Gemini.userBase64 (JStr photo) = Ok (JStr data)
    /\ data <> ""
    /\ (data = photo \/ has_comma data = false).
Proof.
  intros Hne. exists (payload_second_segment photo).
  split; [apply userBase64_string |].
  unfold payload_second_segment.
  destruct (after_first_comma photo) as [tail |]; [| split; [assumption | now left]].
  destruct (String.eqb_spec (up_to_comma tail) "") as [_ | Hseg].
  - split; [assumption | now left].
  - split; [assumption | right; apply up_to_comma_no_comma].
Qed.

Lemma user_payload_nonempty_witness :
  exists data,
    Gemini.userBase64 (JStr "a,,c") = Ok (JStr data)
    /\ data <> ""
    /\ (data = "a,,c" \/ has_comma data = false).
Proof.
  apply (user_payload_nonempty "a,,c"). discriminate.
Defined.

(** *** The base64 text of the product image *)

Lemma list_ind3 {A : Type} (P : list A -> Prop) :
  P [] -> (forall a, P [a]) -> (forall a b, P [a; b]) ->
  (forall a b c rest, P rest -> P (a :: b :: c :: rest)) ->
  forall l, P l.
Proof.
  intros H0 H1 H2 H3 l.
  assert (H : P l /\ (forall a, P (a :: l)) /\ (forall a b, P (a :: b :: l))).
  { induction l as [| x l (IH0 & IH1 & IH2)]; [auto |].
    split; [apply IH1 | split; [intros a; apply IH2 | intros a b; apply H3, IH0]]. }
  apply H.
Qed.

Lemma base64_digit_char (n : N) : base64_char (base64_digit n) = true.
Proof.
  unfold base64_digit.
  assert (Hlt : (N.to_nat (N.land n 63) < 64)%nat).
  { change 63%N with (N.ones 6). rewrite N.land_ones.
    pose proof (N.mod_upper_bound n (2 ^ 6)) as H. change (2 ^ 6)%N with 64%N in *. lia. }
  destruct (N.to_nat (N.land n 63)) as [| i]; [reflexivity |].
  do 63 (destruct i as [| i]; [reflexivity |]). lia.
Qed.

(** The base64 text of [n] bytes has [4 * ceil(n / 3)] characters, each a
    digit of the base64 alphabet or the pad [=]; so it is empty only for an
    empty image and never has a comma. *)
Theorem base64_shape (bs : list byte) :
  String.length (base64 bs) = 4 * ((List.length bs + 2) / 3)
  /\ forallb base64_char (list_ascii_of_string (base64 bs)) = true
  /\ has_comma (base64 bs) = false.
Proof.
  assert (Hchars : forallb base64_char (list_ascii_of_string (base64 bs)) = true).
  { induction bs as [| a | a b | a b c rest IH] using list_ind3;
      cbn [base64 list_ascii_of_string forallb];
      rewrite ?base64_digit_char; cbn [andb]; try reflexivity. exact IH. }
  split; [| split; [exact Hchars |]].
  - clear Hchars.
    induction bs as [| a | a b | a b c rest IH] using list_ind3; try reflexivity.
    cbn [base64 String.length List.length]. rewrite IH.
    replace (S (S (S (List.length rest))) + 2) with (List.length rest + 2 + 1 * 3) by lia.
    rewrite Nat.div_add by lia. lia.
  - revert Hchars. generalize (base64 bs). intros s.
    induction s as [| c s IH]; [reflexivity |].
    cbn [list_ascii_of_string forallb has_comma]. intros H.
    apply andb_true_iff in H as [Hc Hs]. rewrite (IH Hs), orb_false_r.
    destruct (Ascii.eqb_spec c ",") as [-> | _]; [discriminate Hc | reflexivity].
Qed.

(** *** The product image part *)

(** The product image is sent as the third part of the content, after the
    prompt and the user photo: its data is the base64 text of the fetched
    bytes, and its MIME type is the [content-type] header of the fetch
    response, or [image/png] when the header is absent or empty. *)
Theorem product_part_sent (w : World) (req : Request) (productResponse : FetchResponse)
  (productBuffer : list byte) (photo : string) :
  valid_post req ->
  key_configured w = true ->
  fetch w (member (body req) "productImage") = Ok productResponse ->
  ok productResponse = true ->
  arrayBuffer productResponse = Ok productBuffer ->
  member (body req) "userPhoto" = JStr photo ->
  exists outcome rest userPart,
    exec (Gemini.handler w req)
    = (outcome,
       EvFetch (member (body req) "productImage")
         :: EvGenerateContent (env_value (GOOGLE_API_KEY w)) "gemini-1.5-flash"
              (JArr [ JObj [("text", member (body req) "prompt")];
                      userPart;
                      JObj [("inlineData",
                             JObj [("mimeType",
                                    JStr (match content_type productResponse with
                                          | Some (String c s) => String c s
                                          | Some EmptyString | None => "image/png"
                                          end));
                                   ("data", JStr (base64 productBuffer))])] ])
         :: rest).
Proof.
  intros Hv Hk Hf Hok Hb Hp.
  destruct (handler_reaches_provider w req productResponse productBuffer photo
              Hv Hk Hf Hok Hb Hp) as (outcome & rest & H).
  exists outcome, rest. eexists. rewrite H. unfold sent_content.
  destruct (content_type productResponse) as [[| c s] |]; reflexivity.
Qed.

Lemma product_part_sent_witness :
  exists outcome rest userPart,
    exec (Gemini.handler
            (sample_world (Some "key")
               (mkFetchResponse true "OK" (Ok (list_byte_of_string "Ma")) (Some ""))
               JUndefined)
            dress_request)
    = (outcome,
       EvFetch (JStr "https://example.com/product.jpg")
         :: EvGenerateContent (JStr "key") "gemini-1.5-flash"
              (JArr [ JObj [("text", JStr dress_prompt)];
                      userPart;
                      JObj [("inlineData",
                             JObj [("mimeType", JStr "image/png");
                                   ("data", JStr "TWE=")])] ])
         :: rest).
Proof.
  apply (product_part_sent
           (sample_world (Some "key")
              (mkFetchResponse true "OK" (Ok (list_byte_of_string "Ma")) (Some ""))
              JUndefined)
           dress_request
           (mkFetchResponse true "OK" (Ok (list_byte_of_string "Ma")) (Some ""))
           (list_byte_of_string "Ma") "data:image/jpeg;base64,/9j/4AAQ"
           dress_request_valid eq_refl eq_refl eq_refl eq_refl eq_refl).
Defined.
